(** * ipynb2zed: notebook to flat Python file converter

    A shallow embedding of [ipynb2zed.py].

    Text is a [string], a sequence of bytes: the UTF-8 encoding of the Python
    [str].  The line feed is byte 10 and never part of a longer UTF-8
    sequence, so [endswith('\n')], concatenation and line splitting agree on
    both views.  An open text file is the text written to it so far, and
    [file_handle.write(s)] appends to it.

    Limits of the model: a [write] to an open file and a [print] always
    succeed (no full disk, no closed stream, no text that cannot be encoded);
    line feeds are written as they are (no translation by the platform);
    [json.load] is a parameter of the conversion; the only exceptions are the
    ones the modelled operations raise, none arrives from outside a run; the
    class of an exception is the one Python raises, the text of its message
    is abridged. *)

From Stdlib Require Import String Ascii List Bool Arith Lia Setoid FinFun.
From Stdlib Require Import Decimal DecimalString DecimalNat.
Import ListNotations.

Local Open Scope list_scope.
Local Open Scope string_scope.

(** ** Text constants *)

Module Text.

Definition LF : ascii := "010"%char.
Definition DQUOTE : ascii := "034"%char.

(** The Python literal with one line feed. *)
Definition nl : string := String LF EmptyString.

(** Three double-quote characters. *)
Definition triple_quote : string :=
  String DQUOTE (String DQUOTE (String DQUOTE EmptyString)).

(** [s.endswith(suffix)]: some tail of [s] is [suffix]. *)
Fixpoint endswith (s suffix : string) : bool :=
  String.eqb s suffix ||
  match s with
  | EmptyString => false
  | String _ s' => endswith s' suffix
  end.

(** [str(n)] / the [{n}] of an f-string, for a non-negative [int]. *)
Definition str_of_int (n : nat) : string :=
  NilZero.string_of_uint (Nat.to_uint n).

(** The lines of a text, each without its line feed; a final line feed ends
    the last line and opens no new one. *)
Fixpoint lines (s : string) : list string :=
  match s with
  | EmptyString => []
  | String c s' =>
      if Ascii.eqb c LF then EmptyString :: lines s'
      else match lines s' with
           | [] => [String c EmptyString]
           | l :: ls => String c l :: ls
           end
  end.

Definition is_digit (c : ascii) : bool :=
  let n := nat_of_ascii c in ((48 <=? n) && (n <=? 57))%nat.

Fixpoint all_digits (s : string) : bool :=
  match s with
  | EmptyString => true
  | String c s' => is_digit c && all_digits s'
  end.

End Text.
Import Text.

(** ** Output file handles *)

(** A [TextIO] opened for writing, as the text written so far. *)
Definition TextIO := string.

Definition write (file_handle : TextIO) (s : string) : TextIO :=
  file_handle ++ s.

(** ** The three formatters *)

Definition process_code_cell (file_handle : TextIO) (cell_content : string)
  : TextIO :=
  let file_handle := write file_handle cell_content in
  if negb (endswith cell_content nl)
  then write file_handle nl
  else file_handle.

Definition process_markdown_cell (file_handle : TextIO) (cell_content : string)
  : TextIO :=
  let file_handle := write file_handle (triple_quote ++ nl) in
  let file_handle := write file_handle ("```md" ++ nl) in
  let file_handle := write file_handle cell_content in
  let file_handle :=
    if negb (endswith cell_content nl)
    then write file_handle nl
    else file_handle in
  let file_handle := write file_handle ("```" ++ nl) in
  write file_handle (triple_quote ++ nl).

Definition process_raw_cell (file_handle : TextIO) (cell_content : string)
  : TextIO :=
  let file_handle := write file_handle (triple_quote ++ nl) in
  let file_handle := write file_handle cell_content in
  let file_handle :=
    if negb (endswith cell_content nl)
    then write file_handle nl
    else file_handle in
  write file_handle (triple_quote ++ nl).

(** ** Parsed JSON documents *)

(** What [json.load] builds: [None], [bool], numbers (kept as their literal
    text; no operation below looks inside one), [str], [list] and [dict].  A
    [dict] keeps its entries in insertion order, which iteration follows. *)
#[local] Unset Elimination Schemes.
Inductive value : Type :=
| JNone
| JBool (b : bool)
| JNumber (literal : string)
| JStr (s : string)
| JList (items : list value)
| JDict (entries : list (string * value)).
#[local] Set Elimination Schemes.

(** ** Exceptions *)

Inductive exn_class : Type :=
| IOError            (* OSError and its subclasses *)
| JSONDecodeError
| AttributeError
| TypeError
| OtherException     (* any other subclass of Exception *)
| KeyboardInterrupt. (* BaseException, but not Exception *)

Record exn : Type := mk_exn { exn_cls : exn_class; exn_msg : string }.

Definition is_Exception (e : exn) : bool :=
  match exn_cls e with
  | KeyboardInterrupt => false
  | _ => true
  end.

Definition is_IOError_or_JSONDecodeError (e : exn) : bool :=
  match exn_cls e with
  | IOError | JSONDecodeError => true
  | _ => false
  end.

Inductive result (A : Type) : Type :=
| Return (a : A)
| Raise (e : exn).
Arguments Return {A} a.
Arguments Raise {A} e.

Definition rbind {A B} (r : result A) (k : A -> result B) : result B :=
  match r with
  | Return a => k a
  | Raise e => Raise e
  end.

Notation "x <~ r ;; k" := (rbind r (fun x => k))
  (at level 61, r at next level, right associativity).

(** ** Operations of Python objects used by the converter *)

Fixpoint lookup (entries : list (string * value)) (key : string) : option value :=
  match entries with
  | [] => None
  | (k, v) :: rest => if String.eqb k key then Some v else lookup rest key
  end.

(** [obj.get(key, default)]: only a [dict] has the method. *)
Definition get (obj : value) (key : string) (default : value) : result value :=
  match obj with
  | JDict entries =>
      Return (match lookup entries key with
              | Some v => v
              | None => default
              end)
  | _ => Raise (mk_exn AttributeError "object has no attribute 'get'")
  end.

Fixpoint chars (s : string) : list string :=
  match s with
  | EmptyString => []
  | String c s' => String c EmptyString :: chars s'
  end.

(** [iter(obj)]: the items a [for] loop, [enumerate] or [str.join] sees. *)
Definition iter (obj : value) : result (list value) :=
  match obj with
  | JList items => Return items
  | JStr s => Return (map JStr (chars s))
  | JDict entries => Return (map (fun kv => JStr (fst kv)) entries)
  | _ => Raise (mk_exn TypeError "object is not iterable")
  end.

Fixpoint join_items (sep : string) (items : list value) : result string :=
  match items with
  | [] => Return EmptyString
  | JStr s :: rest =>
      match rest with
      | [] => Return s
      | _ => tail <~ join_items sep rest ;; Return (s ++ sep ++ tail)
      end
  | _ :: _ => Raise (mk_exn TypeError "sequence item: expected str instance")
  end.

(** [sep.join(iterable)]. *)
Definition join (sep : string) (iterable : value) : result string :=
  items <~ iter iterable ;; join_items sep items.

(** [v == s] for a string literal [s]. *)
Definition eq_str (v : value) (s : string) : bool :=
  match v with
  | JStr t => String.eqb t s
  | _ => false
  end.

(** ** The cell dispatcher *)

Definition write_cell (file_handle : TextIO) (cell_number : nat)
  (cell_type : value) (cell_content : string) : TextIO :=
  let file_handle :=
    write file_handle ("# %% Cell " ++ str_of_int cell_number ++ nl) in
  let file_handle :=
    if eq_str cell_type "code" then
      process_code_cell file_handle cell_content
    else if eq_str cell_type "markdown" then
      process_markdown_cell file_handle cell_content
    else if eq_str cell_type "raw" then
      process_raw_cell file_handle cell_content
    else file_handle in
  write file_handle nl.

(** ** The world of a run: files and the two standard streams *)

Record World : Type := mk_World {
  files : string -> option string;  (* path to the text of the file there *)
  writable : string -> bool;        (* can the path be opened with mode 'w' *)
  stdout : list string;             (* lines printed so far *)
  stderr : list string
}.

Definition set_file (w : World) (path text : string) : World :=
  mk_World
    (fun p => if String.eqb p path then Some text else files w p)
    (writable w) (stdout w) (stderr w).

(** Computations that read and change the world and may raise. *)
Definition M (A : Type) : Type := World -> result A * World.

Definition ret {A} (a : A) : M A := fun w => (Return a, w).

Definition bind {A B} (m : M A) (k : A -> M B) : M B :=
  fun w =>
    match m w with
    | (Return a, w') => k a w'
    | (Raise e, w') => (Raise e, w')
    end.

Definition lift {A} (r : result A) : M A := fun w => (r, w).

Notation "x <- m ;; k" := (bind m (fun x => k))
  (at level 61, m at next level, right associativity).
Notation "m ;;; k" := (bind m (fun _ => k))
  (at level 61, right associativity).

(** [open(path, 'r')] followed by reading the whole file. *)
Definition read_text (path : string) : M string :=
  fun w =>
    match files w path with
    | Some text => (Return text, w)
    | None =>
        (Raise (mk_exn IOError ("[Errno 2] No such file or directory: " ++ path)), w)
    end.

(** [open(path, 'w')]: creates the file or truncates it. *)
Definition open_w (path : string) : M unit :=
  fun w =>
    if writable w path
    then (Return tt, set_file w path EmptyString)
    else (Raise (mk_exn IOError ("[Errno 13] Permission denied: " ++ path)), w).

(** Run a block that writes to the handle of the file at [path]; what it
    wrote before raising stays in the file. *)
Definition writing {A} (path : string) (block : TextIO -> result A * TextIO)
  : M A :=
  fun w =>
    let file_handle :=
      match files w path with
      | Some text => text
      | None => EmptyString
      end in
    let (r, file_handle) := block file_handle in
    (r, set_file w path file_handle).

Definition print (line : string) : M unit :=
  fun w => (Return tt, mk_World (files w) (writable w) (stdout w ++ [line]) (stderr w)).

Definition print_stderr (line : string) : M unit :=
  fun w => (Return tt, mk_World (files w) (writable w) (stdout w) (stderr w ++ [line])).

(** [try: body except handler]. *)
Definition try_except {A} (body : M A) (handler : exn -> M A) : M A :=
  fun w =>
    match body w with
    | (Return a, w') => (Return a, w')
    | (Raise e, w') => handler e w'
    end.

Definition raise {A} (e : exn) : M A := fun w => (Raise e, w).

(** ** The conversion *)

(** The [for i, cell in enumerate(cells)] loop; [i] is the index of the
    first cell of [cells]. *)
Fixpoint write_cells (f : TextIO) (i : nat) (cells : list value)
  : result unit * TextIO :=
  match cells with
  | [] => (Return tt, f)
  | cell :: rest =>
      let fields :=
        cell_type <~ get cell "cell_type" (JStr "code") ;;
        source <~ get cell "source" (JList []) ;;
        cell_content <~ join EmptyString source ;;
        Return (cell_type, cell_content) in
      match fields with
      | Return (cell_type, cell_content) =>
          write_cells (write_cell f (i + 1) cell_type cell_content) (S i) rest
      | Raise e => (Raise e, f)
      end
  end.

Section Conversion.

(** [json.load] on the text of the input file: the parsed document, or the
    exception it raises. *)
Variable json_load : string -> result value.

Definition convert_body (input_file output_file : string) : M bool :=
  text <- read_text input_file ;;
  notebook <- lift (json_load text) ;;
  cells <- lift (get notebook "cells" (JList [])) ;;
  open_w output_file ;;;
  items <- lift (iter cells) ;;
  writing output_file (fun f => write_cells f 0 items) ;;;
  print ("Conversion completed: " ++ input_file ++ " → " ++ output_file) ;;;
  ret true.

Definition convert_notebook_to_py (input_file output_file : string) : M bool :=
  try_except (convert_body input_file output_file)
    (fun e =>
       if is_IOError_or_JSONDecodeError e then
         print_stderr ("Error during conversion: " ++ exn_msg e) ;;;
         ret false
       else if is_Exception e then
         print_stderr ("Unexpected error: " ++ exn_msg e) ;;;
         ret false
       else raise e).

End Conversion.

(** ** The command line *)

(** What [parser.parse_args()] returns: the two positional arguments. *)
Record Namespace : Type := mk_Namespace {
  ns_input : string;
  ns_output : string
}.

(** How the process ends: [sys.exit(code)], or an exception nobody caught. *)
Inductive process_end : Type :=
| Exit (code : nat)
| Uncaught (e : exn).

Section CommandLine.

Variable json_load : string -> result value.

(** [parser.parse_args()] on the arguments of the process: the namespace, or
    the exit status with which [argparse] leaves (after printing its usage or
    help text). *)
Variable parse_args : list string -> World -> (Namespace + nat) * World.

Definition main (argv : list string) (w : World) : process_end * World :=
  match parse_args argv w with
  | (inr code, w) => (Exit code, w)
  | (inl args, w) =>
      match convert_notebook_to_py json_load (ns_input args) (ns_output args) w with
      | (Return success, w) => (Exit (if success then 0 else 1), w)
      | (Raise e, w) => (Uncaught e, w)
      end
  end.

End CommandLine.

(** * Vocabulary of the statements *)

(** ** Lines and bodies *)

(** A text is [closed] when appending to it starts a new line. *)
Definition closed (s : string) : bool :=
  String.eqb s EmptyString || endswith s nl.

Fixpoint no_lf (s : string) : bool :=
  match s with
  | EmptyString => true
  | String c s' => negb (Ascii.eqb c LF) && no_lf s'
  end.

(** The line feed a formatter adds after [content]: none when [content]
    already ends with one. *)
Definition final_newline (content : string) : string :=
  if endswith content nl then EmptyString else nl.

(** The marker of cell [n], without its line feed. *)
Definition marker_line (n : nat) : string := "# %% Cell " ++ str_of_int n.

(** What [write_cell] writes between the marker line and the separator. *)
Definition formatted_body (cell_type : value) (cell_content : string) : string :=
  if eq_str cell_type "code" then
    process_code_cell EmptyString cell_content
  else if eq_str cell_type "markdown" then
    process_markdown_cell EmptyString cell_content
  else if eq_str cell_type "raw" then
    process_raw_cell EmptyString cell_content
  else EmptyString.

Fixpoint strip_prefix (p s : string) : option string :=
  match p, s with
  | EmptyString, _ => Some s
  | String a p', String b s' =>
      if Ascii.eqb a b then strip_prefix p' s' else None
  | String _ _, EmptyString => None
  end.

(** A line of the form [# %% Cell <digits>]. *)
Definition is_marker_line (l : string) : bool :=
  match strip_prefix "# %% Cell " l with
  | Some number => negb (String.eqb number EmptyString) && all_digits number
  | None => false
  end.

(** ** Valid documents *)

Definition is_dict (v : value) : bool :=
  match v with
  | JDict _ => true
  | _ => false
  end.

Definition is_str (v : value) : bool :=
  match v with
  | JStr _ => true
  | _ => false
  end.

(** A cell of a valid document: a mapping whose [cell_type], when present,
    is a string and whose [source], when present, is a sequence of strings. *)
Definition valid_cell (cell : value) : bool :=
  match cell with
  | JDict entries =>
      match lookup entries "cell_type" with
      | None => true
      | Some v => is_str v
      end &&
      match lookup entries "source" with
      | None => true
      | Some (JList fragments) => forallb is_str fragments
      | Some _ => false
      end
  | _ => false
  end.

(** A valid document: a mapping whose [cells], when present, is a sequence
    of valid cells. *)
Definition valid_document (notebook : value) : bool :=
  match notebook with
  | JDict entries =>
      match lookup entries "cells" with
      | None => true
      | Some (JList cells) => forallb valid_cell cells
      | Some _ => false
      end
  | _ => false
  end.

Definition cells_of (notebook : value) : list value :=
  match notebook with
  | JDict entries =>
      match lookup entries "cells" with
      | Some (JList cells) => cells
      | _ => []
      end
  | _ => []
  end.

Definition cell_type_of (cell : value) : value :=
  match cell with
  | JDict entries =>
      match lookup entries "cell_type" with
      | Some v => v
      | None => JStr "code"
      end
  | _ => JStr "code"
  end.

Fixpoint concat_fragments (fragments : list value) : string :=
  match fragments with
  | JStr s :: rest => s ++ concat_fragments rest
  | _ => EmptyString
  end.

Definition content_of (cell : value) : string :=
  match cell with
  | JDict entries =>
      match lookup entries "source" with
      | Some (JList fragments) => concat_fragments fragments
      | _ => EmptyString
      end
  | _ => EmptyString
  end.

(** The blocks of the cells, the first with number [n]: marker line, body,
    blank separator line. *)
Fixpoint blocks (n : nat) (cells : list value) : string :=
  match cells with
  | [] => EmptyString
  | cell :: rest =>
      marker_line n ++ nl
      ++ formatted_body (cell_type_of cell) (content_of cell) ++ nl
      ++ blocks (S n) rest
  end.

(** ** Effects of a run *)

(** What the loop reads from a cell before it writes anything for it. *)
Definition cell_fields (cell : value) : result (value * string) :=
  cell_type <~ get cell "cell_type" (JStr "code") ;;
  source <~ get cell "source" (JList []) ;;
  cell_content <~ join EmptyString source ;;
  Return (cell_type, cell_content).

(** The world after a diagnostic was printed to standard error. *)
Definition diagnosed (w : World) (line : string) : World :=
  mk_World (files w) (writable w) (stdout w) (stderr w ++ [line]).

(** The result of the conversion from the result of its body. *)
Definition handled (r : result bool) : result bool :=
  match r with
  | Return b => Return b
  | Raise e =>
      if is_IOError_or_JSONDecodeError e then Return false
      else if is_Exception e then Return false
      else Raise e
  end.

Section Effects.

Variable json_load : string -> result value.
Variables input_file output_file : string.

Definition status_line : string :=
  "Conversion completed: " ++ input_file ++ " → " ++ output_file.

(** The world after the output file was opened and [out] written to it. *)
Definition written (w : World) (out : string) : World :=
  set_file (set_file w output_file EmptyString) output_file out.

Definition completed (w : World) : World :=
  mk_World (files w) (writable w) (stdout w ++ [status_line]) (stderr w).

(** What the body does as a function of the two things it looks at, the
    text of the input file and whether the output can be opened: its result,
    and the text it leaves in the output file ([None]: the file was never
    opened). *)
Definition body_effect (text : option string) (can_write : bool)
  : result bool * option string :=
  match text with
  | None =>
      (Raise (mk_exn IOError
                ("[Errno 2] No such file or directory: " ++ input_file)), None)
  | Some text =>
      match json_load text with
      | Raise e => (Raise e, None)
      | Return notebook =>
          match get notebook "cells" (JList []) with
          | Raise e => (Raise e, None)
          | Return cells =>
              if can_write then
                match iter cells with
                | Raise e => (Raise e, Some EmptyString)
                | Return items =>
                    match write_cells EmptyString 0 items with
                    | (Return _, out) => (Return true, Some out)
                    | (Raise e, out) => (Raise e, Some out)
                    end
                end
              else
                (Raise (mk_exn IOError
                          ("[Errno 13] Permission denied: " ++ output_file)), None)
          end
      end
  end.

(** The files after a run that left [out] in the output file. *)
Definition files_after (w : World) (left : option string) (p : string)
  : option string :=
  match left with
  | None => files w p
  | Some out => if String.eqb p output_file then Some out else files w p
  end.

End Effects.

(** ** Sample runs *)

(** A text between double quotes. *)
Definition quoted (s : string) : string :=
  String DQUOTE (s ++ String DQUOTE EmptyString).

(** A notebook with a markdown cell and a cell without a type. *)
Definition sample_notebook : value :=
  JDict [("cells",
          JList [JDict [("cell_type", JStr "markdown");
                        ("source", JList [JStr "# Title"])];
                 JDict [("source", JList [JStr "x = 1"; JStr (nl ++ "y = 2")])]])].

Definition sample_text : string :=
  "{" ++ quoted "cells" ++ ": [{" ++ quoted "cell_type" ++ ": "
  ++ quoted "markdown" ++ ", " ++ quoted "source" ++ ": ["
  ++ quoted "# Title" ++ "]}, {" ++ quoted "source" ++ ": ["
  ++ quoted "x = 1" ++ ", " ++ quoted "\ny = 2" ++ "]}]}".

(** A notebook whose only cell holds a line that reads like a marker. *)
Definition marker_notebook : value :=
  JDict [("cells",
          JList [JDict [("cell_type", JStr "code");
                        ("source", JList [JStr "# %% Cell 2"])]])].

Definition marker_text : string :=
  "{" ++ quoted "cells" ++ ": [{" ++ quoted "cell_type" ++ ": "
  ++ quoted "code" ++ ", " ++ quoted "source" ++ ": ["
  ++ quoted "# %% Cell 2" ++ "]}]}".

(** [json.load] on the sample texts; every other text is taken as
    malformed. *)
Definition sample_load (text : string) : result value :=
  if String.eqb text "{}" then Return (JDict [])
  else if String.eqb text sample_text then Return sample_notebook
  else if String.eqb text marker_text then Return marker_notebook
  else Raise (mk_exn JSONDecodeError "Expecting value: line 1 column 1 (char 0)").

(** A world with one file, [nb.ipynb], where every path can be written. *)
Definition sample_world (text : string) : World :=
  mk_World (fun p => if String.eqb p "nb.ipynb" then Some text else None)
    (fun _ => true) [] [].

(** A notebook whose second cell is [null]. *)
Definition broken_notebook : value :=
  JDict [("cells",
          JList [JDict [("cell_type", JStr "code");
                        ("source", JList [JStr "x = 1"])];
                 JNone])].

(** A world with [nb.ipynb] and an older [nb.py], where every path can be
    written. *)
Definition rerun_world (text : string) : World :=
  mk_World (fun p => if String.eqb p "nb.ipynb" then Some text
                     else if String.eqb p "nb.py" then Some "old"
                     else None)
    (fun _ => true) [] [].

(** A world with [nb.ipynb] and an older [nb.py], where no path can be
    written. *)
Definition locked_world (text : string) : World :=
  mk_World (fun p => if String.eqb p "nb.ipynb" then Some text
                     else if String.eqb p "nb.py" then Some "old"
                     else None)
    (fun _ => false) [] [].

(** [parse_args] on exactly two plain arguments; anything else is taken as
    a usage error, with which [argparse] exits with status 2. *)
Definition sample_parse_args (argv : list string) (w : World)
  : (Namespace + nat) * World :=
  match argv with
  | [input; output] => (inl (mk_Namespace input output), w)
  | _ => (inr 2, diagnosed w "usage: ipynb2zed.py [-h] input output")
  end.

(** * Facts about text *)

Module TextFacts.

Lemma app_assoc (a b c : string) : (a ++ b) ++ c = a ++ b ++ c.
Proof. induction a as [|x a IH]; simpl; [reflexivity | now rewrite IH]. Qed.

Lemma app_nil_l (a : string) : EmptyString ++ a = a.
Proof. reflexivity. Qed.

Lemma app_nil_r (a : string) : a ++ EmptyString = a.
Proof. induction a as [|x a IH]; simpl; [reflexivity | now rewrite IH]. Qed.

Lemma app_inv_head (a b c : string) : a ++ b = a ++ c -> b = c.
Proof.
  induction a as [|x a IH]; simpl; intros H; [assumption|].
  injection H as H. now apply IH.
Qed.

Lemma app_length (a b : string) :
  String.length (a ++ b) = String.length a + String.length b.
Proof. induction a as [|x a IH]; simpl; [reflexivity | now rewrite IH]. Qed.

(** [endswith] holds exactly of the texts with that suffix. *)
Lemma endswith_iff (s suffix : string) :
  endswith s suffix = true <-> exists p, s = p ++ suffix.
Proof.
  induction s as [|x s IH]; cbn [endswith].
  - rewrite orb_false_r, String.eqb_eq. split.
    + intros <-. now exists EmptyString.
    + intros [p H]. destruct p; simpl in H; [congruence | discriminate].
  - rewrite orb_true_iff, String.eqb_eq, IH. split.
    + intros [<- | [p ->]]; [now exists EmptyString | now exists (String x p)].
    + intros [p H]. destruct p as [|y p]; simpl in H.
      * now left.
      * injection H as _ H. right. now exists p.
Qed.

Lemma endswith_app (p suffix : string) : endswith (p ++ suffix) suffix = true.
Proof. apply endswith_iff. now exists p. Qed.

Lemma endswith_nl_cons (c : ascii) (s : string) :
  endswith (String c s) nl =
  if String.eqb s EmptyString then Ascii.eqb c LF else endswith s nl.
Proof.
  destruct s as [|y s].
  - simpl. destruct (Ascii.eqb c LF); reflexivity.
  - change (endswith (String c (String y s)) nl)
      with ((String c (String y s) =? nl) || endswith (String y s) nl).
    replace (String c (String y s) =? nl) with false; [reflexivity|].
    symmetry. apply String.eqb_neq. unfold nl. congruence.
Qed.

Lemma closed_cons (c : ascii) (s : string) :
  closed (String c s) = true ->
  closed s = true /\ (s = EmptyString -> c = LF).
Proof.
  unfold closed. change (String c s =? EmptyString) with false.
  rewrite orb_false_l, endswith_nl_cons.
  destruct (String.eqb_spec s EmptyString) as [->|Hs]; simpl.
  - intros H. apply Ascii.eqb_eq in H. auto.
  - intros ->. split; [reflexivity | contradiction].
Qed.

Lemma lines_nonempty (s : string) : s <> EmptyString -> lines s <> [].
Proof.
  destruct s as [|c s]; [contradiction|]. intros _. simpl.
  destruct (Ascii.eqb c LF); [discriminate|].
  destruct (lines s); discriminate.
Qed.

(** After a closed text the lines of what follows are unchanged. *)
Lemma lines_app (s t : string) :
  closed s = true -> lines (s ++ t) = (lines s ++ lines t)%list.
Proof.
  induction s as [|c s IH]; intros Hc; [reflexivity|].
  apply closed_cons in Hc. destruct Hc as [Hs Hlast]. simpl.
  rewrite (IH Hs).
  destruct (Ascii.eqb_spec c LF) as [->|Hc]; [reflexivity|].
  pose proof (lines_nonempty s) as Hne.
  destruct (lines s) as [|l ls]; [|reflexivity].
  destruct s; [now specialize (Hlast eq_refl) | now elim Hne].
Qed.

(** A line and its line feed in front of a text. *)
Lemma lines_line (l rest : string) :
  no_lf l = true -> lines (l ++ nl ++ rest) = l :: lines rest.
Proof.
  change (nl ++ rest) with (String LF rest).
  induction l as [|c l IH]; simpl; intros H; [reflexivity|].
  apply andb_true_iff in H. destruct H as [Hc Hl].
  apply negb_true_iff in Hc. rewrite Hc, (IH Hl). reflexivity.
Qed.

(** Appending a line feed: a closed text gains an empty line, an open last
    line is merely ended. *)
Lemma lines_snoc_nl (s : string) :
  lines (s ++ nl) = if closed s then (lines s ++ [EmptyString])%list else lines s.
Proof.
  induction s as [|c s IH]; [reflexivity|].
  unfold closed. change (String c s =? EmptyString) with false.
  rewrite orb_false_l, endswith_nl_cons. simpl. rewrite IH.
  unfold closed.
  destruct (Ascii.eqb_spec c LF) as [->|Hc].
  - destruct (String.eqb_spec s EmptyString) as [->|Hs]; [reflexivity|].
    simpl. destruct (endswith s nl); reflexivity.
  - destruct (String.eqb_spec s EmptyString) as [->|Hs]; [reflexivity|].
    simpl. pose proof (lines_nonempty s Hs) as Hne.
    destruct (endswith s nl); destruct (lines s); try reflexivity.
    now elim Hne.
Qed.

End TextFacts.
Import TextFacts.

(** * The formatters *)

Lemma closed_final_newline (content : string) :
  closed (content ++ final_newline content) = true.
Proof.
  unfold closed, final_newline.
  destruct (endswith content nl) eqn:E.
  - rewrite app_nil_r, E. apply orb_true_r.
  - rewrite endswith_app. apply orb_true_r.
Qed.

Lemma process_code_cell_eq (f content : string) :
  process_code_cell f content = f ++ content ++ final_newline content.
Proof.
  unfold process_code_cell, write, final_newline.
  destruct (endswith content nl); simpl.
  - now rewrite app_nil_r.
  - apply app_assoc.
Qed.

Lemma process_markdown_cell_eq (f content : string) :
  process_markdown_cell f content =
  f ++ (triple_quote ++ nl) ++ ("```md" ++ nl)
    ++ (content ++ final_newline content)
    ++ ("```" ++ nl) ++ (triple_quote ++ nl).
Proof.
  unfold process_markdown_cell, write, final_newline.
  destruct (endswith content nl); cbn [negb];
    rewrite ?app_nil_r, ?app_assoc; reflexivity.
Qed.

Lemma process_raw_cell_eq (f content : string) :
  process_raw_cell f content =
  f ++ (triple_quote ++ nl) ++ (content ++ final_newline content)
    ++ (triple_quote ++ nl).
Proof.
  unfold process_raw_cell, write, final_newline.
  destruct (endswith content nl); cbn [negb];
    rewrite ?app_nil_r, ?app_assoc; reflexivity.
Qed.

(** C4: the code formatter writes [content] itself, byte for byte, followed by
    one line feed exactly when [content] does not end with a line feed (and by
    nothing when it does). *)
Theorem process_code_cell_verbatim (f content : string) :
  process_code_cell f content
  = f ++ content ++ (if endswith content nl then EmptyString else nl)
  /\ (endswith content nl = true <-> exists p, content = p ++ nl)
  /\ (endswith content nl = true -> process_code_cell f content = f ++ content).
Proof.
  split; [apply process_code_cell_eq|].
  split; [apply endswith_iff|].
  intros E. rewrite process_code_cell_eq. unfold final_newline.
  now rewrite E, app_nil_r.
Qed.

(** C5: the markdown formatter writes, in this order, a line of three
    double quotes, the line [```md], the content closed by a single line feed
    (added only when missing), the line [```], and a line of three double
    quotes. *)
Theorem process_markdown_cell_layout (f content : string) :
  let body := content ++ (if endswith content nl then EmptyString else nl) in
  process_markdown_cell f content
  = f ++ triple_quote ++ nl ++ "```md" ++ nl ++ body
      ++ "```" ++ nl ++ triple_quote ++ nl
  /\ endswith body nl = true
  /\ lines (process_markdown_cell EmptyString content)
     = (triple_quote :: "```md" :: lines body ++ ["```"; triple_quote])%list.
Proof.
  intros body.
  assert (Hbody : body = content ++ final_newline content) by reflexivity.
  split; [|split].
  - rewrite process_markdown_cell_eq, <- Hbody.
    now rewrite !app_assoc.
  - subst body. destruct (endswith content nl) eqn:E.
    + now rewrite app_nil_r.
    + apply endswith_app.
  - rewrite process_markdown_cell_eq, <- Hbody, app_nil_l.
    rewrite !app_assoc.
    rewrite (lines_line triple_quote) by reflexivity.
    rewrite (lines_line "```md") by reflexivity.
    rewrite lines_app by (rewrite Hbody; apply closed_final_newline).
    reflexivity.
Qed.

(** C6: the raw formatter writes a line of three double quotes, the content
    closed by a single line feed, and a line of three double quotes; the
    markdown formatter's output on the same content is this text with the
    [```md] line put after the opening line and the [```] line put before
    the closing one. *)
Theorem process_raw_cell_layout (f content : string) :
  let body := content ++ (if endswith content nl then EmptyString else nl) in
  let opening := triple_quote ++ nl in
  let closing := triple_quote ++ nl in
  process_raw_cell f content = f ++ opening ++ body ++ closing
  /\ process_markdown_cell f content
     = f ++ opening ++ ("```md" ++ nl) ++ body ++ ("```" ++ nl) ++ closing
  /\ lines (process_raw_cell EmptyString content)
     = (triple_quote :: lines body ++ [triple_quote])%list.
Proof.
  intros body opening closing.
  assert (Hbody : body = content ++ final_newline content) by reflexivity.
  split; [|split].
  - rewrite process_raw_cell_eq, <- Hbody. reflexivity.
  - rewrite process_markdown_cell_eq, <- Hbody. reflexivity.
  - rewrite process_raw_cell_eq, <- Hbody, app_nil_l.
    rewrite !app_assoc.
    rewrite (lines_line triple_quote) by reflexivity.
    rewrite lines_app by (rewrite Hbody; apply closed_final_newline).
    reflexivity.
Qed.

(** * The dispatcher *)

Lemma write_cell_eq (f : TextIO) (n : nat) (cell_type : value) (content : string) :
  write_cell f n cell_type content
  = f ++ marker_line n ++ nl ++ formatted_body cell_type content ++ nl.
Proof.
  unfold write_cell, formatted_body, marker_line, write.
  destruct (eq_str cell_type "code");
    [|destruct (eq_str cell_type "markdown");
      [|destruct (eq_str cell_type "raw")]];
    rewrite ?process_code_cell_eq, ?process_markdown_cell_eq,
      ?process_raw_cell_eq, ?app_nil_l, ?app_assoc; reflexivity.
Qed.

(** [write_cell] only appends to the handle. *)
Lemma write_cell_appends (f : TextIO) (n : nat) (cell_type : value) (content : string) :
  write_cell f n cell_type content
  = f ++ write_cell EmptyString n cell_type content.
Proof. now rewrite (write_cell_eq f), (write_cell_eq EmptyString). Qed.

(** C1: the code departs from the claim.  For a cell of type ["unknown"]
    with content [x = 1] the dispatcher writes the marker line and the blank
    separator line and nothing between them, where the claim asks for the
    bytes of the code cell: the chain of tests has no final branch and the
    content of the cell is lost. *)
Lemma unknown_type_differs_from_code :
  eq_str (JStr "unknown") "code" = false
  /\ eq_str (JStr "unknown") "markdown" = false
  /\ eq_str (JStr "unknown") "raw" = false
  /\ write_cell EmptyString 1 (JStr "unknown") "x = 1"
     <> write_cell EmptyString 1 (JStr "code") "x = 1".
Proof.
  repeat split. intros H. vm_compute in H. discriminate H.
Qed.

(** The same for every type that is none of [code], [markdown], [raw], every
    position and every content: [write_cell] raises nothing and writes the
    marker line and the blank separator line only, which is never what it
    writes for a code cell with that content. *)
Theorem write_cell_unknown_type (f : TextIO) (n : nat) (cell_type : value)
  (content : string) :
  eq_str cell_type "code" = false ->
  eq_str cell_type "markdown" = false ->
  eq_str cell_type "raw" = false ->
  write_cell f n cell_type content = f ++ "# %% Cell " ++ str_of_int n ++ nl ++ nl
  /\ write_cell f n cell_type content <> write_cell f n (JStr "code") content.
Proof.
  intros Hc Hm Hr.
  assert (Hbody : formatted_body cell_type content = EmptyString)
    by (unfold formatted_body; now rewrite Hc, Hm, Hr).
  split.
  - rewrite write_cell_eq, Hbody. unfold marker_line.
    now rewrite app_assoc.
  - rewrite !write_cell_eq, Hbody. intros H.
    do 3 apply app_inv_head in H.
    unfold formatted_body in H. cbn [eq_str] in H.
    rewrite String.eqb_refl, process_code_cell_eq in H.
    apply (f_equal String.length) in H.
    rewrite !app_length in H. unfold final_newline in H.
    destruct (endswith content nl) eqn:E; simpl in H; [|lia].
    destruct content; [discriminate E | simpl in H; lia].
Qed.

Lemma write_cell_unknown_type_witness :
  write_cell EmptyString 3 (JStr "unknown") "x = 1"
  = EmptyString ++ "# %% Cell " ++ str_of_int 3 ++ nl ++ nl
  /\ write_cell EmptyString 3 (JStr "unknown") "x = 1"
     <> write_cell EmptyString 3 (JStr "code") "x = 1".
Proof.
  apply (write_cell_unknown_type EmptyString 3 (JStr "unknown") "x = 1");
    reflexivity.
Defined.

(** C2, as stated, fails: for the empty code cell at position 1 the marker
    line is followed by two line feeds, not one. *)
Lemma empty_code_cell_not_one_blank_line :
  write_cell EmptyString 1 (JStr "code") EmptyString
  <> "# %% Cell 1" ++ nl ++ nl.
Proof. intros H. vm_compute in H. discriminate H. Qed.

(** ** Decimal renderings and marker lines *)

Lemma all_digits_string_of_uint (d : Decimal.uint) :
  all_digits (NilEmpty.string_of_uint d) = true.
Proof. induction d; simpl; auto. Qed.

Lemma all_digits_str_of_int (n : nat) : all_digits (str_of_int n) = true.
Proof.
  unfold str_of_int, NilZero.string_of_uint.
  destruct (Nat.to_uint n) eqn:E; try reflexivity;
    rewrite <- E; apply all_digits_string_of_uint.
Qed.

Lemma str_of_int_nonempty (n : nat) : str_of_int n <> EmptyString.
Proof.
  unfold str_of_int, NilZero.string_of_uint.
  destruct (Nat.to_uint n); simpl; discriminate.
Qed.

(** Distinct positions have distinct renderings. *)
Lemma str_of_int_inj (n m : nat) : str_of_int n = str_of_int m -> n = m.
Proof.
  unfold str_of_int. intros H.
  assert (Hread : forall k,
    option_map Nat.of_uint
      (NilZero.uint_of_string (NilZero.string_of_uint (Nat.to_uint k)))
    = Some k).
  { intros k. pose proof (DecimalNat.Unsigned.of_to k) as Hk.
    destruct (Nat.to_uint k);
      [simpl in *; now f_equal
      |rewrite NilZero.usu by discriminate; simpl; now f_equal ..]. }
  pose proof (Hread n) as Hn. rewrite H, Hread in Hn. congruence.
Qed.

Lemma all_digits_no_lf (s : string) : all_digits s = true -> no_lf s = true.
Proof.
  induction s as [|c s IH]; simpl; [reflexivity|].
  intros H. apply andb_true_iff in H. destruct H as [Hc Hs].
  rewrite (IH Hs), andb_true_r.
  destruct (Ascii.eqb_spec c LF) as [->|]; [discriminate Hc | reflexivity].
Qed.

Lemma no_lf_app (a b : string) : no_lf (a ++ b) = no_lf a && no_lf b.
Proof.
  induction a as [|c a IH]; simpl; [reflexivity|].
  now rewrite IH, andb_assoc.
Qed.

Lemma no_lf_marker_line (n : nat) : no_lf (marker_line n) = true.
Proof.
  unfold marker_line. rewrite no_lf_app.
  now rewrite (all_digits_no_lf _ (all_digits_str_of_int n)).
Qed.

(** C2, amended: the code formatter writes one line feed for the empty
    content (the empty text does not end with a line feed), so an empty code
    cell is written as the marker line followed by two blank lines: the
    formatter's and the dispatcher's separator. *)
Theorem write_cell_empty_code (f : TextIO) (n : nat) :
  process_code_cell f EmptyString = f ++ nl
  /\ write_cell f n (JStr "code") EmptyString
     = f ++ "# %% Cell " ++ str_of_int n ++ nl ++ nl ++ nl
  /\ lines (write_cell EmptyString n (JStr "code") EmptyString)
     = ["# %% Cell " ++ str_of_int n; EmptyString; EmptyString].
Proof.
  split; [now rewrite process_code_cell_eq|].
  assert (H : forall g, write_cell g n (JStr "code") EmptyString
                        = g ++ marker_line n ++ nl ++ nl ++ nl)
    by (intros g; now rewrite write_cell_eq).
  split.
  - rewrite H. unfold marker_line. now rewrite app_assoc.
  - rewrite H, app_nil_l. fold (marker_line n).
    rewrite (lines_line (marker_line n)) by apply no_lf_marker_line.
    reflexivity.
Qed.

(** * The conversion *)

Lemma files_set_file_same (w : World) (path text : string) :
  files (set_file w path text) path = Some text.
Proof. simpl. now rewrite String.eqb_refl. Qed.

Lemma files_set_file_other (w : World) (path text p : string) :
  p <> path -> files (set_file w path text) p = files w p.
Proof. intros H. simpl. apply String.eqb_neq in H. now rewrite H. Qed.

(** The loop only appends to the handle, also when it raises. *)
Lemma write_cells_appends (cells : list value) (f : TextIO) (i : nat) :
  write_cells f i cells
  = (fst (write_cells EmptyString i cells),
     f ++ snd (write_cells EmptyString i cells)).
Proof.
  revert f i. induction cells as [|cell rest IH]; intros f i.
  - simpl. now rewrite app_nil_r.
  - cbn [write_cells].
    destruct (cell_type <~ get cell "cell_type" (JStr "code") ;;
              source <~ get cell "source" (JList []) ;;
              cell_content <~ join EmptyString source ;;
              Return (cell_type, cell_content)) as [[cell_type content]|e].
    + rewrite (IH (write_cell f (i + 1) cell_type content)).
      rewrite (IH (write_cell EmptyString (i + 1) cell_type content)).
      cbn [fst snd].
      now rewrite (write_cell_appends f), app_assoc.
    + simpl. now rewrite app_nil_r.
Qed.

Section ConversionFacts.

Variable json_load : string -> result value.
Variables input_file output_file : string.

Let body := convert_body json_load input_file output_file.
Let convert := convert_notebook_to_py json_load input_file output_file.

(** The steps of the body, one case per place where it can stop. *)
Lemma convert_body_steps (w : World) :
  body w =
  match files w input_file with
  | None =>
      (Raise (mk_exn IOError
                ("[Errno 2] No such file or directory: " ++ input_file)), w)
  | Some text =>
      match json_load text with
      | Raise e => (Raise e, w)
      | Return notebook =>
          match get notebook "cells" (JList []) with
          | Raise e => (Raise e, w)
          | Return cells =>
              if writable w output_file then
                match iter cells with
                | Raise e => (Raise e, set_file w output_file EmptyString)
                | Return items =>
                    match write_cells EmptyString 0 items with
                    | (Return _, out) => (Return true, completed input_file output_file (written output_file w out))
                    | (Raise e, out) => (Raise e, written output_file w out)
                    end
                end
              else
                (Raise (mk_exn IOError
                          ("[Errno 13] Permission denied: " ++ output_file)), w)
          end
      end
  end.
Proof.
  unfold body, convert_body, bind, read_text, lift, open_w, writing.
  destruct (files w input_file) as [text|]; [|reflexivity].
  destruct (json_load text) as [notebook|e]; [|reflexivity].
  destruct (get notebook "cells" (JList [])) as [cells|e]; [|reflexivity].
  destruct (writable w output_file); [|reflexivity].
  destruct (iter cells) as [items|e]; [|reflexivity].
  rewrite files_set_file_same.
  destruct (write_cells EmptyString 0 items) as [[[]|e] out]; reflexivity.
Qed.

(** The [try] statement around the body. *)
Lemma convert_steps (w : World) :
  convert w =
  match body w with
  | (Return b, w') => (Return b, w')
  | (Raise e, w') =>
      if is_IOError_or_JSONDecodeError e then
        (Return false, diagnosed w' ("Error during conversion: " ++ exn_msg e))
      else if is_Exception e then
        (Return false, diagnosed w' ("Unexpected error: " ++ exn_msg e))
      else (Raise e, w')
  end.
Proof.
  unfold convert, convert_notebook_to_py, try_except. fold body.
  destruct (body w) as [[b|e] w']; [reflexivity|].
  destruct (is_IOError_or_JSONDecodeError e); [reflexivity|].
  destruct (is_Exception e); reflexivity.
Qed.

Lemma get_raises (obj : value) (key : string) (default : value) (e : exn) :
  get obj key default = Raise e -> exn_cls e = AttributeError.
Proof. destruct obj; simpl; intros [= <-]; reflexivity. Qed.

Lemma iter_raises (obj : value) (e : exn) :
  iter obj = Raise e -> exn_cls e = TypeError.
Proof. destruct obj; simpl; intros [= <-]; reflexivity. Qed.

Lemma join_items_raises (sep : string) (items : list value) (e : exn) :
  join_items sep items = Raise e -> exn_cls e = TypeError.
Proof.
  induction items as [|item rest IH]; [discriminate|].
  cbn [join_items].
  destruct item; try (intros [= <-]; reflexivity).
  destruct rest as [|item' rest']; [discriminate|].
  destruct (join_items sep (item' :: rest')) as [tail|e']; simpl.
  - discriminate.
  - intros [= <-]. now apply IH.
Qed.

Lemma join_raises (sep : string) (iterable : value) (e : exn) :
  join sep iterable = Raise e -> exn_cls e = TypeError.
Proof.
  unfold join. destruct (iter iterable) as [items|e'] eqn:E; simpl.
  - apply join_items_raises.
  - intros [= <-]. now apply iter_raises in E.
Qed.

(** Whatever the loop raises is an [AttributeError] or a [TypeError]. *)
Lemma write_cells_raises (cells : list value) (f out : TextIO) (i : nat) (e : exn) :
  write_cells f i cells = (Raise e, out) -> is_Exception e = true.
Proof.
  revert f i. induction cells as [|cell rest IH]; intros f i; [discriminate|].
  cbn [write_cells].
  destruct (get cell "cell_type" (JStr "code")) as [cell_type|e1] eqn:E1; simpl.
  - destruct (get cell "source" (JList [])) as [source|e2] eqn:E2; simpl.
    + destruct (join EmptyString source) as [content|e3] eqn:E3; simpl.
      * apply IH.
      * intros [= <- _]. apply join_raises in E3.
        unfold is_Exception. now rewrite E3.
    + intros [= <- _]. apply get_raises in E2.
      unfold is_Exception. now rewrite E2.
  - intros [= <- _]. apply get_raises in E1.
    unfold is_Exception. now rewrite E1.
Qed.

(** The body returns only [True], after the status line, and leaves
    standard error alone. *)
Lemma body_returns (w w' : World) (b : bool) :
  body w = (Return b, w') ->
  b = true
  /\ stderr w' = stderr w
  /\ stdout w' =
     (stdout w ++ [status_line input_file output_file])%list.
Proof.
  rewrite convert_body_steps.
  destruct (files w input_file) as [text|]; [|discriminate].
  destruct (json_load text) as [notebook|e]; [|discriminate].
  destruct (get notebook "cells" (JList [])) as [cells|e]; [|discriminate].
  destruct (writable w output_file); [|discriminate].
  destruct (iter cells) as [items|e]; [|discriminate].
  destruct (write_cells EmptyString 0 items) as [[[]|e] out]; [|discriminate].
  intros [= <- <-]. repeat split.
Qed.

Section Handled.

(** [json.load] raises instances of [Exception] only: [JSONDecodeError],
    [UnicodeDecodeError], [RecursionError] and the like. *)
Hypothesis json_load_raises :
  forall text e, json_load text = Raise e -> is_Exception e = true.

Lemma body_raises (w w' : World) (e : exn) :
  body w = (Raise e, w') -> is_Exception e = true /\ stderr w' = stderr w.
Proof.
  rewrite convert_body_steps.
  destruct (files w input_file) as [text|]; [|intros [= <- <-]; now split].
  destruct (json_load text) as [notebook|e0] eqn:Eload;
    [|intros [= <- <-]; split; [now apply (json_load_raises text)|reflexivity]].
  destruct (get notebook "cells" (JList [])) as [cells|e0] eqn:Eget.
  2:{ intros [= <- <-]. apply get_raises in Eget.
      unfold is_Exception. now rewrite Eget. }
  destruct (writable w output_file); [|intros [= <- <-]; now split].
  destruct (iter cells) as [items|e0] eqn:Eiter.
  2:{ intros [= <- <-]. apply iter_raises in Eiter.
      unfold is_Exception. now rewrite Eiter. }
  destruct (write_cells EmptyString 0 items) as [[[]|e0] out] eqn:Eloop;
    [discriminate|].
  intros [= <- <-]. split; [|reflexivity].
  now apply write_cells_raises in Eloop.
Qed.

(** C7: the conversion never raises.  It returns [True] exactly when its body
    ran to the end, then with the status line printed; every exception of the
    body (the input cannot be read, [json.load] fails, the document has the
    wrong shape, the output cannot be opened) is caught: one diagnostic goes
    to standard error and [False] is returned. *)
Theorem convert_never_raises (w : World) :
  exists (b : bool) (w' : World),
    convert w = (Return b, w')
    /\ (b = true <-> exists w0, body w = (Return true, w0))
    /\ (b = true <->
        stdout w' =
        (stdout w ++ [status_line input_file output_file])%list
        /\ stderr w' = stderr w)
    /\ (b = false <->
        (exists e w0, body w = (Raise e, w0))
        /\ exists line, stderr w' = (stderr w ++ [line])%list).
Proof.
  rewrite convert_steps.
  destruct (body w) as [[b|e] w0] eqn:Ebody.
  - destruct (body_returns _ _ _ Ebody) as (-> & Herr & Hout).
    exists true, w0. repeat split; try assumption; try discriminate.
    + now exists w0.
    + intros [[e [w1 [=]]] _].
  - destruct (body_raises _ _ _ Ebody) as (Hexn & Herr).
    assert (Hstderr : forall line, stderr w <> (stderr w ++ [line])%list).
    { intros line H. apply (f_equal (@List.length string)) in H.
      rewrite List.length_app in H. simpl in H. lia. }
    rewrite Hexn.
    destruct (is_IOError_or_JSONDecodeError e).
    + eexists false, _. split; [reflexivity|]. simpl. rewrite Herr.
      repeat split; try discriminate.
      * intros [w1 [=]].
      * intros [_ H]. symmetry in H. now apply Hstderr in H.
      * now exists e, w0.
      * eexists. reflexivity.
    + eexists false, _. split; [reflexivity|]. simpl. rewrite Herr.
      repeat split; try discriminate.
      * intros [w1 [=]].
      * intros [_ H]. symmetry in H. now apply Hstderr in H.
      * now exists e, w0.
      * eexists. reflexivity.
Qed.

End Handled.

Lemma body_effect_spec (w : World) :
  let effect := body_effect json_load input_file output_file (files w input_file) (writable w output_file) in
  fst (body w) = fst effect
  /\ (forall p, files (snd (body w)) p = files_after output_file w (snd effect) p)
  /\ writable (snd (body w)) = writable w.
Proof.
  rewrite convert_body_steps. unfold body_effect, files_after.
  destruct (files w input_file) as [text|]; [|now repeat split].
  destruct (json_load text) as [notebook|e]; [|now repeat split].
  destruct (get notebook "cells" (JList [])) as [cells|e]; [|now repeat split].
  destruct (writable w output_file) eqn:Ew; [|now repeat split].
  destruct (iter cells) as [items|e]; [|now repeat split].
  destruct (write_cells EmptyString 0 items) as [[[]|e] out];
    (repeat split; simpl; intros p; now destruct (String.eqb p output_file)).
Qed.

Lemma convert_effect_spec (w : World) :
  let effect := body_effect json_load input_file output_file (files w input_file) (writable w output_file) in
  fst (convert w) = handled (fst effect)
  /\ (forall p, files (snd (convert w)) p = files_after output_file w (snd effect) p)
  /\ writable (snd (convert w)) = writable w.
Proof.
  destruct (body_effect_spec w) as (Hr & Hf & Hw). cbv zeta.
  rewrite <- Hr. rewrite convert_steps.
  destruct (body w) as [[b|e] w0]; [now repeat split|].
  cbn [fst snd handled] in *.
  destruct (is_IOError_or_JSONDecodeError e); [now repeat split|].
  destruct (is_Exception e); now repeat split.
Qed.

(** C9: the conversion is a function of the input document.  Two runs that
    find the same input text and the same access to the output path end with
    the same result, and if they open the output file they leave the same
    bytes in it; in particular, running the conversion again on the same
    pair of paths leaves every file as the first run left it. *)
Theorem conversion_deterministic (w : World) :
  input_file <> output_file ->
  let w1 := snd (convert w) in
  let w2 := snd (convert w1) in
  fst (convert w1) = fst (convert w)
  /\ (forall p, files w2 p = files w1 p)
  /\ forall w', files w' input_file = files w input_file ->
               writable w' output_file = writable w output_file ->
               fst (convert w') = fst (convert w)
               /\ (fst (convert w) = Return true ->
                   files (snd (convert w')) output_file = files w1 output_file).
Proof.
  intros Hne w1 w2.
  destruct (convert_effect_spec w) as (Hr & Hf & Hw). cbv zeta in *.
  assert (Hin1 : files w1 input_file = files w input_file).
  { unfold w1. rewrite Hf. unfold files_after.
    destruct (snd (body_effect json_load input_file output_file (files w input_file) (writable w output_file)));
      [|reflexivity].
    apply String.eqb_neq in Hne. now rewrite Hne. }
  assert (Hw1 : writable w1 output_file = writable w output_file)
    by (unfold w1; now rewrite Hw).
  split; [|split].
  - destruct (convert_effect_spec w1) as (Hr1 & _ & _). cbv zeta in *.
    now rewrite Hr1, Hin1, Hw1, Hr.
  - intros p. destruct (convert_effect_spec w1) as (_ & Hf1 & _). cbv zeta in *.
    unfold w2. rewrite Hf1, Hin1, Hw1. unfold files_after.
    destruct (snd (body_effect json_load input_file output_file (files w input_file) (writable w output_file)))
      as [out|] eqn:E; [|reflexivity].
    destruct (String.eqb p output_file) eqn:Ep; [|reflexivity].
    unfold w1. rewrite Hf. unfold files_after. now rewrite Ep.
  - intros w' Hin' Hw'.
    destruct (convert_effect_spec w') as (Hr' & Hf' & _). cbv zeta in *.
    rewrite Hin', Hw' in Hr', Hf'. split; [now rewrite Hr', Hr|].
    intros Hok. unfold w1. rewrite Hf, Hf'. unfold files_after.
    destruct (snd (body_effect json_load input_file output_file (files w input_file) (writable w output_file)))
      as [out|] eqn:E; [now rewrite String.eqb_refl|].
    exfalso. rewrite Hr in Hok. revert Hok E. unfold body_effect.
    destruct (files w input_file) as [text|]; [|discriminate].
    destruct (json_load text) as [notebook|e];
      [|simpl; destruct (is_IOError_or_JSONDecodeError e);
        [discriminate | destruct (is_Exception e); discriminate]].
    destruct (get notebook "cells" (JList [])) as [cells|e];
      [|simpl; destruct (is_IOError_or_JSONDecodeError e);
        [discriminate | destruct (is_Exception e); discriminate]].
    destruct (writable w output_file); [|discriminate].
    destruct (iter cells) as [items|e]; [|discriminate].
    destruct (write_cells EmptyString 0 items) as [[[]|e] out]; discriminate.
Qed.

(** C8: when the input parses as a mapping without a [cells] field and the
    output can be opened, the conversion returns [True], prints the status
    line, and the output file exists and is empty; no other file changes. *)
Theorem missing_cells_empty_output (w : World) (text : string)
  (entries : list (string * value)) :
  files w input_file = Some text ->
  json_load text = Return (JDict entries) ->
  lookup entries "cells" = None ->
  writable w output_file = true ->
  fst (convert w) = Return true
  /\ files (snd (convert w)) output_file = Some EmptyString
  /\ (forall p, p <> output_file -> files (snd (convert w)) p = files w p)
  /\ stdout (snd (convert w)) = (stdout w ++ [status_line input_file output_file])%list
  /\ stderr (snd (convert w)) = stderr w.
Proof.
  intros Hfile Hload Hcells Hopen.
  rewrite convert_steps, convert_body_steps, Hfile, Hload.
  cbn [get]. rewrite Hcells, Hopen. cbn [iter write_cells fst snd].
  repeat split.
  - unfold written, completed. cbn [files]. apply files_set_file_same.
  - intros p Hp. unfold written, completed. cbn [files].
    now rewrite !files_set_file_other.
Qed.

End ConversionFacts.

(** * Cell sources *)

(** Joining the characters of a text with the empty separator gives the
    text back. *)
Lemma join_items_chars (s : string) :
  join_items EmptyString (map JStr (chars s)) = Return s.
Proof.
  induction s as [|c s IH]; [reflexivity|].
  cbn [chars map join_items].
  destruct s as [|c' s]; [reflexivity|].
  change (map JStr (chars (String c' s)))
    with (JStr (String c' EmptyString) :: map JStr (chars s)) in *.
  rewrite IH. reflexivity.
Qed.

(** C10: a cell whose [source] is a single string has that string,
    unchanged, as its content: [''.join] of a string is the string, and the
    loop writes the cell with it. *)
Theorem string_source_is_content (entries : list (string * value))
  (s : string) (f : TextIO) (i : nat) :
  lookup entries "source" = Some (JStr s) ->
  join EmptyString (JStr s) = Return s
  /\ write_cells f i [JDict entries]
     = (Return tt,
        write_cell f (i + 1)
          (match lookup entries "cell_type" with
           | Some cell_type => cell_type
           | None => JStr "code"
           end) s).
Proof.
  intros Hsource.
  assert (Hjoin : join EmptyString (JStr s) = Return s)
    by (unfold join; cbn [iter rbind]; apply join_items_chars).
  split; [exact Hjoin|].
  cbn [write_cells get rbind]. rewrite Hsource, Hjoin. reflexivity.
Qed.

Lemma string_source_is_content_witness :
  lookup [("cell_type", JStr "code"); ("source", JStr "x = 1")] "source"
  = Some (JStr "x = 1")
  /\ join EmptyString (JStr "x = 1") = Return "x = 1"
  /\ write_cells EmptyString 0
       [JDict [("cell_type", JStr "code"); ("source", JStr "x = 1")]]
     = (Return tt, write_cell EmptyString 1 (JStr "code") "x = 1").
Proof.
  split; [reflexivity|].
  apply (string_source_is_content
           [("cell_type", JStr "code"); ("source", JStr "x = 1")]
           "x = 1" EmptyString 0).
  reflexivity.
Defined.

(** * Valid documents and their marker lines *)

Lemma is_marker_line_marker (n : nat) : is_marker_line (marker_line n) = true.
Proof.
  unfold is_marker_line, marker_line. cbn [strip_prefix append Ascii.eqb].
  simpl. rewrite all_digits_str_of_int, andb_true_r.
  apply negb_true_iff, String.eqb_neq, str_of_int_nonempty.
Qed.

Lemma marker_line_inj (n m : nat) : marker_line n = marker_line m -> n = m.
Proof.
  unfold marker_line. intros H. apply app_inv_head in H.
  now apply str_of_int_inj.
Qed.

Lemma join_items_fragments (fragments : list value) :
  forallb is_str fragments = true ->
  join_items EmptyString fragments = Return (concat_fragments fragments).
Proof.
  induction fragments as [|v rest IH]; [reflexivity|].
  cbn [forallb]. intros H. apply andb_true_iff in H. destruct H as [Hv Hrest].
  destruct v; try discriminate Hv.
  cbn [join_items concat_fragments].
  destruct rest as [|v' rest']; [now rewrite app_nil_r|].
  rewrite (IH Hrest). reflexivity.
Qed.

(** On valid cells the loop runs to the end and writes their blocks. *)
Lemma write_cells_valid (cells : list value) (f : TextIO) (i : nat) :
  forallb valid_cell cells = true ->
  write_cells f i cells = (Return tt, f ++ blocks (i + 1) cells).
Proof.
  revert f i. induction cells as [|cell rest IH]; intros f i H.
  - simpl. now rewrite app_nil_r.
  - cbn [forallb] in H. apply andb_true_iff in H. destruct H as [Hcell Hrest].
    destruct cell as [| | | | |entries]; try discriminate Hcell.
    cbn [valid_cell] in Hcell. apply andb_true_iff in Hcell.
    destruct Hcell as [_ Hsource].
    assert (Hjoin :
      (source <~ get (JDict entries) "source" (JList []) ;;
       join EmptyString source)
      = Return (content_of (JDict entries))).
    { cbn [get rbind content_of].
      destruct (lookup entries "source") as [[| | | |fragments|]|];
        try discriminate Hsource; [|reflexivity].
      unfold join. cbn [iter rbind]. now apply join_items_fragments. }
    cbn [write_cells blocks]. cbn [get rbind] in *.
    destruct (join EmptyString
                match lookup entries "source" with
                | Some v => v
                | None => JList []
                end) as [content|e]; [|discriminate Hjoin].
    injection Hjoin as ->. cbn [rbind].
    rewrite (IH _ _ Hrest), write_cell_eq.
    replace (S i + 1) with (S (i + 1)) by lia.
    cbn [cell_type_of]. now rewrite !app_assoc.
Qed.

Lemma lines_final_newline (content l : string) :
  In l (lines (content ++ final_newline content)) ->
  l = EmptyString \/ In l (lines content).
Proof.
  unfold final_newline. destruct (endswith content nl) eqn:E.
  - rewrite app_nil_r. now right.
  - rewrite lines_snoc_nl. destruct (closed content); [|now right].
    intros H. apply in_app_or in H. destruct H as [H|[<-|[]]]; auto.
Qed.

Lemma closed_app_nl (s : string) : closed (s ++ nl) = true.
Proof. unfold closed. rewrite endswith_app. apply orb_true_r. Qed.

Lemma lines_process_markdown_cell (content : string) :
  lines (process_markdown_cell EmptyString content)
  = (triple_quote :: "```md" :: lines (content ++ final_newline content)
       ++ ["```"; triple_quote])%list.
Proof.
  rewrite process_markdown_cell_eq, app_nil_l, !app_assoc.
  rewrite (lines_line triple_quote) by reflexivity.
  rewrite (lines_line "```md") by reflexivity.
  rewrite <- app_assoc, lines_app by apply closed_final_newline.
  reflexivity.
Qed.

Lemma lines_process_raw_cell (content : string) :
  lines (process_raw_cell EmptyString content)
  = (triple_quote :: lines (content ++ final_newline content)
       ++ [triple_quote])%list.
Proof.
  rewrite process_raw_cell_eq, app_nil_l, !app_assoc.
  rewrite (lines_line triple_quote) by reflexivity.
  rewrite <- app_assoc, lines_app by apply closed_final_newline.
  reflexivity.
Qed.

(** Every body ends its last line. *)
Lemma closed_formatted_body (cell_type : value) (content : string) :
  closed (formatted_body cell_type content) = true.
Proof.
  unfold formatted_body.
  destruct (eq_str cell_type "code").
  - rewrite process_code_cell_eq. apply closed_final_newline.
  - destruct (eq_str cell_type "markdown").
    + rewrite process_markdown_cell_eq, app_nil_l, <- !app_assoc.
      apply closed_app_nl.
    + destruct (eq_str cell_type "raw"); [|reflexivity].
      rewrite process_raw_cell_eq, app_nil_l, <- !app_assoc.
      apply closed_app_nl.
Qed.

(** The formatters add no marker line of their own. *)
Lemma formatted_body_no_marker (cell_type : value) (content : string) :
  (forall l, In l (lines content) -> is_marker_line l = false) ->
  forall l, In l (lines (formatted_body cell_type content)) ->
            is_marker_line l = false.
Proof.
  intros Hcontent l.
  assert (Hclosed : In l (lines (content ++ final_newline content)) ->
                    is_marker_line l = false).
  { intros H. apply lines_final_newline in H.
    destruct H as [->|H]; [reflexivity | now apply Hcontent]. }
  unfold formatted_body.
  destruct (eq_str cell_type "code").
  - rewrite process_code_cell_eq. exact Hclosed.
  - destruct (eq_str cell_type "markdown").
    + rewrite lines_process_markdown_cell.
      intros [<-|[<-|H]]; try reflexivity.
      apply in_app_or in H. destruct H as [H|[<-|[<-|[]]]]; auto.
    + destruct (eq_str cell_type "raw"); [|intros []].
      rewrite lines_process_raw_cell.
      intros [<-|H]; try reflexivity.
      apply in_app_or in H. destruct H as [H|[<-|[]]]; auto.
Qed.

Lemma filter_none {A} (p : A -> bool) (l : list A) :
  (forall x, In x l -> p x = false) -> filter p l = [].
Proof.
  induction l as [|x l IH]; intros H; [reflexivity|].
  simpl. rewrite (H x) by now left.
  apply IH. intros y Hy. apply H. now right.
Qed.

(** The marker lines among the lines of the blocks are the markers of the
    cells, when no line of a content has the form of a marker. *)
Lemma marker_lines_blocks (cells : list value) (n : nat) :
  (forall cell, In cell cells ->
     forall l, In l (lines (content_of cell)) -> is_marker_line l = false) ->
  filter is_marker_line (lines (blocks n cells))
  = map marker_line (seq n (length cells)).
Proof.
  revert n. induction cells as [|cell rest IH]; intros n H; [reflexivity|].
  cbn [blocks length seq map].
  rewrite (lines_line (marker_line n)) by apply no_lf_marker_line.
  rewrite lines_app by apply closed_formatted_body.
  change (lines (nl ++ blocks (S n) rest))
    with (EmptyString :: lines (blocks (S n) rest)).
  cbn [filter]. rewrite is_marker_line_marker. f_equal.
  rewrite filter_app, filter_none.
  - cbn [filter]. change (is_marker_line EmptyString) with false.
    apply IH. intros c Hc. apply H. now right.
  - apply formatted_body_no_marker, H. now left.
Qed.

Section Documents.

Variable json_load : string -> result value.
Variables input_file output_file : string.

Let convert := convert_notebook_to_py json_load input_file output_file.

(** On a valid document the loop sees the cells of [cells_of]. *)
Lemma valid_document_cells (notebook : value) :
  valid_document notebook = true ->
  exists cells,
    get notebook "cells" (JList []) = Return (JList cells)
    /\ cells_of notebook = cells
    /\ forallb valid_cell cells = true.
Proof.
  destruct notebook as [| | | | |entries]; try discriminate.
  cbn [valid_document get cells_of].
  destruct (lookup entries "cells") as [[| | | |cells|]|]; try discriminate.
  - intros H. now exists cells.
  - intros _. now exists [].
Qed.

(** C3, amended: for a valid document with [k] cells, read from the input
    file and written to an output that can be opened, the conversion returns
    [True] and the output is the [k] blocks in order, block [i] being the
    marker line [# %% Cell i], the body of cell [i] and one blank separator
    line.  When no line of a cell's content has itself the form of a marker
    line, the marker lines of the output are exactly [# %% Cell 1] to
    [# %% Cell k], in this order and without repetition. *)
Theorem markers_of_valid_document (w : World) (text : string) (notebook : value) :
  files w input_file = Some text ->
  json_load text = Return notebook ->
  valid_document notebook = true ->
  writable w output_file = true ->
  let cells := cells_of notebook in
  fst (convert w) = Return true
  /\ files (snd (convert w)) output_file = Some (blocks 1 cells)
  /\ ((forall cell, In cell cells ->
         forall l, In l (lines (content_of cell)) -> is_marker_line l = false) ->
      filter is_marker_line (lines (blocks 1 cells))
      = map marker_line (seq 1 (length cells)))
  /\ NoDup (map marker_line (seq 1 (length cells))).
Proof.
  intros Hfile Hload Hvalid Hopen cells.
  destruct (valid_document_cells notebook Hvalid) as (cs & Hget & Hcs & Hall).
  fold cells in Hcs. subst cs.
  unfold convert.
  rewrite convert_steps, convert_body_steps, Hfile, Hload, Hget, Hopen.
  cbn [iter]. rewrite (write_cells_valid cells EmptyString 0 Hall).
  cbn [fst snd]. repeat split.
  - unfold completed, written. cbn [files]. apply files_set_file_same.
  - apply marker_lines_blocks.
  - apply Injective_map_NoDup; [|apply seq_NoDup].
    intros n m. apply marker_line_inj.
Qed.

End Documents.

(** * Sample runs *)

(** C3, as stated, fails: the notebook has one cell, a code cell whose
    content is the line [# %% Cell 2]; the output then holds two marker
    lines, not one. *)
Lemma marker_in_content_is_counted :
  let run := convert_notebook_to_py sample_load "nb.ipynb" "nb.py"
               (sample_world marker_text) in
  let out := "# %% Cell 1" ++ nl ++ "# %% Cell 2" ++ nl ++ nl in
  valid_document marker_notebook = true
  /\ List.length (cells_of marker_notebook) = 1
  /\ fst run = Return true
  /\ files (snd run) "nb.py" = Some out
  /\ filter is_marker_line (lines out) = ["# %% Cell 1"; "# %% Cell 2"]
  /\ filter is_marker_line (lines out) <> map marker_line (seq 1 1).
Proof.
  cbv zeta. repeat split; try reflexivity.
  intros H. vm_compute in H. discriminate H.
Qed.

Lemma markers_of_valid_document_witness :
  let run := convert_notebook_to_py sample_load "nb.ipynb" "nb.py"
               (sample_world sample_text) in
  valid_document sample_notebook = true
  /\ fst run = Return true
  /\ files (snd run) "nb.py" = Some (blocks 1 (cells_of sample_notebook))
  /\ filter is_marker_line (lines (blocks 1 (cells_of sample_notebook)))
     = ["# %% Cell 1"; "# %% Cell 2"].
Proof.
  destruct (markers_of_valid_document sample_load "nb.ipynb" "nb.py"
              (sample_world sample_text) sample_text sample_notebook
              eq_refl eq_refl eq_refl eq_refl) as (Hr & Hf & Hlines & _).
  split; [reflexivity|]. split; [exact Hr|]. split; [exact Hf|].
  apply Hlines.
  intros cell [<-|[<-|[]]] l; vm_compute; intuition (subst; reflexivity).
Defined.

Lemma sample_load_raises (text : string) (e : exn) :
  sample_load text = Raise e -> is_Exception e = true.
Proof.
  unfold sample_load.
  destruct (String.eqb text "{}"); [discriminate|].
  destruct (String.eqb text sample_text); [discriminate|].
  destruct (String.eqb text marker_text); [discriminate|].
  intros [= <-]. reflexivity.
Qed.

Lemma convert_never_raises_witness :
  exists (b : bool) (w' : World),
    convert_notebook_to_py sample_load "missing.ipynb" "nb.py"
      (sample_world "{}") = (Return b, w').
Proof.
  destruct (convert_never_raises sample_load "missing.ipynb" "nb.py"
              sample_load_raises (sample_world "{}")) as (b & w' & H & _).
  exists b, w'. exact H.
Defined.

Lemma missing_cells_empty_output_witness :
  let run := convert_notebook_to_py sample_load "nb.ipynb" "nb.py"
               (sample_world "{}") in
  fst run = Return true /\ files (snd run) "nb.py" = Some EmptyString.
Proof.
  destruct (missing_cells_empty_output sample_load "nb.ipynb" "nb.py"
              (sample_world "{}") "{}" [] eq_refl eq_refl eq_refl eq_refl)
    as (Hr & Hf & _).
  split; [exact Hr | exact Hf].
Defined.

Lemma conversion_deterministic_witness :
  let w1 := snd (convert_notebook_to_py sample_load "nb.ipynb" "nb.py"
                   (sample_world sample_text)) in
  let w2 := snd (convert_notebook_to_py sample_load "nb.ipynb" "nb.py" w1) in
  "nb.ipynb" <> "nb.py" /\ files w2 "nb.py" = files w1 "nb.py".
Proof.
  assert (Hne : "nb.ipynb" <> "nb.py") by discriminate.
  split; [exact Hne|].
  exact (proj1 (proj2 (conversion_deterministic sample_load "nb.ipynb" "nb.py"
                         (sample_world sample_text) Hne)) "nb.py").
Defined.

(** * Further properties of the formatters *)

(** A code body keeps the lines of a content that is not empty: the line
    feed the formatter may add only ends the last line. *)
Theorem process_code_cell_lines (content : string) :
  content <> EmptyString ->
  lines (process_code_cell EmptyString content) = lines content.
Proof.
  intros Hne. rewrite process_code_cell_eq, app_nil_l. unfold final_newline.
  destruct (endswith content nl) eqn:E; [now rewrite app_nil_r|].
  rewrite lines_snoc_nl. unfold closed. rewrite E, orb_false_r.
  apply String.eqb_neq in Hne. now rewrite Hne.
Qed.

Lemma process_code_cell_lines_witness :
  "x = 1" <> EmptyString
  /\ lines (process_code_cell EmptyString "x = 1") = lines "x = 1".
Proof.
  assert (H : "x = 1" <> EmptyString) by discriminate.
  split; [exact H | exact (process_code_cell_lines "x = 1" H)].
Defined.

(** Formatting the output of the code formatter once more changes nothing:
    the output always ends with a line feed. *)
Theorem process_code_cell_idempotent (content : string) :
  endswith (process_code_cell EmptyString content) nl = true
  /\ process_code_cell EmptyString (process_code_cell EmptyString content)
     = process_code_cell EmptyString content.
Proof.
  assert (Hend : endswith (process_code_cell EmptyString content) nl = true).
  { rewrite process_code_cell_eq, app_nil_l. unfold final_newline.
    destruct (endswith content nl) eqn:E.
    - now rewrite app_nil_r.
    - apply endswith_app. }
  split; [exact Hend|].
  rewrite (process_code_cell_eq EmptyString (process_code_cell _ _)).
  unfold final_newline. now rewrite Hend, app_nil_l, app_nil_r.
Qed.

(** The markdown formatter is the raw formatter applied to the content put
    between the two fence lines. *)
Theorem process_markdown_cell_as_raw (f : TextIO) (content : string) :
  process_markdown_cell f content
  = process_raw_cell f
      ("```md" ++ nl ++ content
       ++ (if endswith content nl then EmptyString else nl) ++ "```" ++ nl).
Proof.
  rewrite process_markdown_cell_eq, process_raw_cell_eq.
  fold (final_newline content).
  set (fenced := "```md" ++ nl ++ content ++ final_newline content ++ "```" ++ nl).
  assert (Hend : endswith fenced nl = true).
  { unfold fenced.
    replace ("```md" ++ nl ++ content ++ final_newline content ++ "```" ++ nl)
      with (("```md" ++ nl ++ content ++ final_newline content ++ "```") ++ nl)
      by now rewrite !app_assoc.
    apply endswith_app. }
  unfold final_newline at 2. rewrite Hend, app_nil_r.
  unfold fenced. now rewrite !app_assoc.
Qed.

(** Whatever the type and the content of a cell, what [write_cell] writes
    ends with a blank line. *)
Lemma write_cell_ends_with_blank_line (f : TextIO) (n : nat)
  (cell_type : value) (content : string) :
  endswith (write_cell f n cell_type content) (nl ++ nl) = true.
Proof.
  rewrite write_cell_eq. apply endswith_iff.
  pose proof (closed_formatted_body cell_type content) as Hclosed.
  unfold closed in Hclosed. apply orb_true_iff in Hclosed.
  destruct Hclosed as [Hempty|Hend].
  - apply String.eqb_eq in Hempty. rewrite Hempty.
    exists (f ++ marker_line n). now rewrite !app_assoc.
  - apply endswith_iff in Hend. destruct Hend as [p ->].
    exists (f ++ marker_line n ++ nl ++ p). now rewrite !app_assoc.
Qed.

(** * Further properties of the loop *)

(** [sep.join] of a list with an item that is not a string raises a
    [TypeError]. *)
Theorem join_rejects_non_str (sep : string) (items : list value) :
  forallb is_str items = false ->
  exists e, join sep (JList items) = Raise e /\ exn_cls e = TypeError.
Proof.
  unfold join. cbn [iter rbind].
  induction items as [|v rest IH]; [discriminate|].
  cbn [forallb]. intros H.
  destruct v; cbn [is_str] in H; try (eexists; split; reflexivity).
  cbn [andb] in H. destruct (IH H) as (e & He & Hcls).
  exists e. split; [|exact Hcls].
  cbn [join_items]. destruct rest as [|v' rest']; [discriminate H|].
  rewrite He. reflexivity.
Qed.

Lemma join_rejects_non_str_witness :
  forallb is_str [JStr "x = 1"; JNumber "2"] = false
  /\ exists e, join EmptyString (JList [JStr "x = 1"; JNumber "2"]) = Raise e
               /\ exn_cls e = TypeError.
Proof.
  split; [reflexivity|].
  apply (join_rejects_non_str EmptyString [JStr "x = 1"; JNumber "2"]).
  reflexivity.
Defined.

(** One turn of the loop: the fields of the cell are read first; only then
    is the cell written. *)
Lemma write_cells_cons (f : TextIO) (i : nat) (cell : value) (rest : list value) :
  write_cells f i (cell :: rest) =
  match cell_fields cell with
  | Return (cell_type, cell_content) =>
      write_cells (write_cell f (i + 1) cell_type cell_content) (S i) rest
  | Raise e => (Raise e, f)
  end.
Proof. reflexivity. Qed.

Lemma cell_fields_raises (cell : value) (e : exn) :
  cell_fields cell = Raise e ->
  is_IOError_or_JSONDecodeError e = false /\ is_Exception e = true.
Proof.
  unfold cell_fields.
  destruct (get cell "cell_type" (JStr "code")) as [cell_type|e1] eqn:E1; simpl.
  - destruct (get cell "source" (JList [])) as [source|e2] eqn:E2; simpl.
    + destruct (join EmptyString source) as [content|e3] eqn:E3; simpl;
        [discriminate|].
      intros [= <-]. apply join_raises in E3.
      unfold is_IOError_or_JSONDecodeError, is_Exception. now rewrite E3.
    + intros [= <-]. apply get_raises in E2.
      unfold is_IOError_or_JSONDecodeError, is_Exception. now rewrite E2.
  - intros [= <-]. apply get_raises in E1.
    unfold is_IOError_or_JSONDecodeError, is_Exception. now rewrite E1.
Qed.

(** The loop over two lists in a row is the loop over the first, then, if
    it did not raise, the loop over the second with the numbering
    continued. *)
Theorem write_cells_app (first second : list value) (f : TextIO) (i : nat) :
  write_cells f i (first ++ second)%list =
  match write_cells f i first with
  | (Return _, f') => write_cells f' (i + List.length first) second
  | (Raise e, f') => (Raise e, f')
  end.
Proof.
  revert f i. induction first as [|cell rest IH]; intros f i.
  - cbn [List.app write_cells List.length]. now rewrite Nat.add_0_r.
  - change ((cell :: rest) ++ second)%list with (cell :: (rest ++ second))%list.
    rewrite !write_cells_cons.
    destruct (cell_fields cell) as [[cell_type content]|e]; [|reflexivity].
    rewrite IH. cbn [List.length].
    now replace (S i + List.length rest) with (i + S (List.length rest)) by lia.
Qed.

(** A cell without a [cell_type] is written as the same cell with the type
    [code]. *)
Theorem missing_cell_type_is_code (entries : list (string * value))
  (rest : list value) (f : TextIO) (i : nat) :
  lookup entries "cell_type" = None ->
  write_cells f i (JDict entries :: rest)
  = write_cells f i (JDict (("cell_type", JStr "code") :: entries) :: rest).
Proof.
  intros Hnone. rewrite !write_cells_cons. unfold cell_fields.
  cbn [get lookup String.eqb Ascii.eqb Bool.eqb]. now rewrite Hnone.
Qed.

Lemma missing_cell_type_is_code_witness :
  lookup [("source", JList [JStr "x = 1"])] "cell_type" = None
  /\ write_cells EmptyString 0 [JDict [("source", JList [JStr "x = 1"])]]
     = write_cells EmptyString 0
         [JDict [("cell_type", JStr "code"); ("source", JList [JStr "x = 1"])]].
Proof.
  split; [reflexivity|].
  apply (missing_cell_type_is_code [("source", JList [JStr "x = 1"])] []
           EmptyString 0).
  reflexivity.
Defined.

(** A cell without a [source] has the empty content; written as a code cell
    it is the marker line followed by two line feeds. *)
Theorem missing_source_is_empty (entries : list (string * value)) :
  lookup entries "source" = None ->
  cell_fields (JDict entries) = Return (cell_type_of (JDict entries), EmptyString)
  /\ forall f i,
       lookup entries "cell_type" = None ->
       write_cells f i [JDict entries]
       = (Return tt, f ++ "# %% Cell " ++ str_of_int (i + 1) ++ nl ++ nl ++ nl).
Proof.
  intros Hnone.
  assert (Hfields : cell_fields (JDict entries)
                    = Return (cell_type_of (JDict entries), EmptyString)).
  { unfold cell_fields. cbn [get rbind cell_type_of]. rewrite Hnone.
    reflexivity. }
  split; [exact Hfields|].
  intros f i Htype. rewrite write_cells_cons, Hfields.
  cbn [cell_type_of]. rewrite Htype. cbn [write_cells].
  rewrite write_cell_eq. unfold marker_line.
  f_equal; now rewrite ?app_assoc.
Qed.

Lemma missing_source_is_empty_witness :
  lookup [("cell_type", JStr "markdown")] "source" = None
  /\ cell_fields (JDict [("cell_type", JStr "markdown")])
     = Return (JStr "markdown", EmptyString).
Proof.
  split; [reflexivity|].
  exact (proj1 (missing_source_is_empty [("cell_type", JStr "markdown")] eq_refl)).
Defined.

(** The text of a cell matters only through the concatenation of its
    fragments: two cells of the same type whose fragments concatenate to the
    same text are written alike. *)
Theorem fragments_only_concatenated (entries1 entries2 : list (string * value))
  (fragments1 fragments2 : list string) (rest : list value)
  (f : TextIO) (i : nat) :
  lookup entries1 "cell_type" = lookup entries2 "cell_type" ->
  lookup entries1 "source" = Some (JList (map JStr fragments1)) ->
  lookup entries2 "source" = Some (JList (map JStr fragments2)) ->
  String.concat EmptyString fragments1 = String.concat EmptyString fragments2 ->
  write_cells f i (JDict entries1 :: rest)
  = write_cells f i (JDict entries2 :: rest).
Proof.
  intros Htype H1 H2 Hsame. rewrite !write_cells_cons. unfold cell_fields.
  cbn [get rbind]. rewrite Htype, H1, H2.
  assert (Hjoin : forall l, join EmptyString (JList (map JStr l))
                            = Return (String.concat EmptyString l)).
  { intros l. unfold join. cbn [iter rbind].
    induction l as [|x l IH]; [reflexivity|].
    cbn [map join_items String.concat].
    destruct l as [|y l]; [reflexivity|].
    change (map JStr (y :: l)) with (JStr y :: map JStr l) in *.
    now rewrite IH. }
  now rewrite !Hjoin, Hsame.
Qed.

Lemma fragments_only_concatenated_witness :
  write_cells EmptyString 0
    [JDict [("source", JList (map JStr ["x = 1"; nl; "y"]))]]
  = write_cells EmptyString 0
      [JDict [("source", JList (map JStr ["x = 1" ++ nl ++ "y"]))]].
Proof.
  apply (fragments_only_concatenated
           [("source", JList (map JStr ["x = 1"; nl; "y"]))]
           [("source", JList (map JStr ["x = 1" ++ nl ++ "y"]))]
           ["x = 1"; nl; "y"] ["x = 1" ++ nl ++ "y"] [] EmptyString 0);
    reflexivity.
Defined.

(** The fields of a valid cell. *)
Lemma cell_fields_valid (cell : value) :
  valid_cell cell = true ->
  cell_fields cell = Return (cell_type_of cell, content_of cell).
Proof.
  destruct cell as [| | | | |entries]; try discriminate.
  cbn [valid_cell]. intros H. apply andb_true_iff in H. destruct H as [_ Hsource].
  unfold cell_fields. cbn [get rbind cell_type_of content_of].
  destruct (lookup entries "source") as [[| | | |fragments|]|];
    try discriminate Hsource; [|reflexivity].
  unfold join. cbn [iter rbind].
  now rewrite (join_items_fragments fragments Hsource).
Qed.

(** The loop stops at the first cell whose fields cannot be read: the
    blocks of the cells before it are written, nothing of that cell is, not
    even its marker line. *)
Lemma write_cells_stops (prefix : list value) (bad : value) (rest : list value)
  (e : exn) (f : TextIO) (i : nat) :
  forallb valid_cell prefix = true ->
  cell_fields bad = Raise e ->
  write_cells f i (prefix ++ bad :: rest)%list
  = (Raise e, f ++ blocks (i + 1) prefix).
Proof.
  intros Hvalid Hbad. revert f i.
  induction prefix as [|cell prefix IH]; intros f i.
  - cbn [List.app blocks]. now rewrite write_cells_cons, Hbad, app_nil_r.
  - cbn [forallb] in Hvalid. apply andb_true_iff in Hvalid.
    destruct Hvalid as [Hcell Hprefix].
    change ((cell :: prefix) ++ bad :: rest)%list
      with (cell :: (prefix ++ bad :: rest))%list.
    rewrite write_cells_cons, (cell_fields_valid cell Hcell), (IH Hprefix).
    rewrite write_cell_eq. cbn [blocks].
    replace (S i + 1) with (S (i + 1)) by lia.
    now rewrite !app_assoc.
Qed.

(** What the loop leaves in the handle, whether it raised or not, is what
    was there before, or ends with a blank line. *)
Lemma write_cells_blank_end (cells : list value) (f : TextIO) (i : nat) :
  snd (write_cells f i cells) = f
  \/ endswith (snd (write_cells f i cells)) (nl ++ nl) = true.
Proof.
  revert f i. induction cells as [|cell rest IH]; intros f i; [now left|].
  rewrite write_cells_cons.
  destruct (cell_fields cell) as [[cell_type content]|e]; [|now left].
  right. destruct (IH (write_cell f (i + 1) cell_type content) (S i)) as [-> | H].
  - apply write_cell_ends_with_blank_line.
  - exact H.
Qed.

(** * Further properties of the conversion *)

Section ConversionEdges.

Variable json_load : string -> result value.
Variables input_file output_file : string.

Let body := convert_body json_load input_file output_file.
Let convert := convert_notebook_to_py json_load input_file output_file.

(** A run changes no file but the output file, and the access to no path. *)
Theorem convert_touches_output_only (w : World) (p : string) :
  p <> output_file ->
  files (snd (convert w)) p = files w p
  /\ writable (snd (convert w)) = writable w.
Proof.
  intros Hp.
  destruct (convert_effect_spec json_load input_file output_file w)
    as (_ & Hf & Hw). cbv zeta in *.
  split; [|exact Hw].
  fold convert in Hf. rewrite Hf. unfold files_after.
  destruct (snd (body_effect json_load input_file output_file
                   (files w input_file) (writable w output_file)));
    [|reflexivity].
  apply String.eqb_neq in Hp. now rewrite Hp.
Qed.

(** When the input file cannot be read the conversion returns [False],
    prints one diagnostic that starts with [Error during conversion: ], and
    changes no file: the output is neither created nor truncated. *)
Theorem missing_input_keeps_files (w : World) :
  files w input_file = None ->
  fst (convert w) = Return false
  /\ (forall p, files (snd (convert w)) p = files w p)
  /\ stdout (snd (convert w)) = stdout w
  /\ exists msg,
       stderr (snd (convert w))
       = List.app (stderr w) ["Error during conversion: " ++ msg].
Proof.
  intros Hfile. unfold convert.
  rewrite convert_steps, convert_body_steps, Hfile. cbn.
  repeat split. eexists. reflexivity.
Qed.

(** When [json.load] raises, the conversion returns [False], changes no
    file, and prints one diagnostic with the message of the exception: after
    [Error during conversion: ] for a [JSONDecodeError] (or an [IOError]),
    after [Unexpected error: ] for any other exception. *)
Theorem unparsable_input_keeps_files (w : World) (text : string) (e : exn) :
  files w input_file = Some text ->
  json_load text = Raise e ->
  is_Exception e = true ->
  fst (convert w) = Return false
  /\ (forall p, files (snd (convert w)) p = files w p)
  /\ stdout (snd (convert w)) = stdout w
  /\ stderr (snd (convert w))
     = List.app (stderr w)
         [(if is_IOError_or_JSONDecodeError e
           then "Error during conversion: "
           else "Unexpected error: ") ++ exn_msg e].
Proof.
  intros Hfile Hload Hexn. unfold convert.
  rewrite convert_steps, convert_body_steps, Hfile, Hload, Hexn.
  destruct (is_IOError_or_JSONDecodeError e); now repeat split.
Qed.

(** When the document is not a mapping (a list, a string, a number, ...)
    the conversion returns [False], prints one diagnostic that starts with
    [Unexpected error: ], and changes no file. *)
Theorem document_not_a_mapping (w : World) (text : string) (notebook : value) :
  files w input_file = Some text ->
  json_load text = Return notebook ->
  is_dict notebook = false ->
  fst (convert w) = Return false
  /\ (forall p, files (snd (convert w)) p = files w p)
  /\ stdout (snd (convert w)) = stdout w
  /\ exists msg,
       stderr (snd (convert w)) = List.app (stderr w) ["Unexpected error: " ++ msg].
Proof.
  intros Hfile Hload Hdict. unfold convert.
  rewrite convert_steps, convert_body_steps, Hfile, Hload.
  destruct notebook; try discriminate Hdict; cbn;
    (repeat split; eexists; reflexivity).
Qed.

(** When [cells] is not iterable ([null], a number, a boolean) the
    conversion returns [False] after it opened the output: the output file
    is left empty, whatever it held before. *)
Theorem cells_not_iterable_truncates (w : World) (text : string)
  (notebook cells : value) (e : exn) :
  files w input_file = Some text ->
  json_load text = Return notebook ->
  get notebook "cells" (JList []) = Return cells ->
  iter cells = Raise e ->
  writable w output_file = true ->
  fst (convert w) = Return false
  /\ files (snd (convert w)) output_file = Some EmptyString
  /\ stdout (snd (convert w)) = stdout w
  /\ stderr (snd (convert w))
     = List.app (stderr w) ["Unexpected error: " ++ exn_msg e].
Proof.
  intros Hfile Hload Hget Hiter Hopen. unfold convert.
  rewrite convert_steps, convert_body_steps, Hfile, Hload, Hget, Hopen, Hiter.
  apply iter_raises in Hiter.
  unfold is_IOError_or_JSONDecodeError, is_Exception. rewrite Hiter.
  repeat split. cbn [snd diagnosed files]. apply files_set_file_same.
Qed.

(** When [cells] is iterable and empty (an empty list, but also an empty
    string or an empty mapping) the conversion returns [True] and the output
    file is empty. *)
Theorem empty_cells_empty_output (w : World) (text : string)
  (notebook cells : value) :
  files w input_file = Some text ->
  json_load text = Return notebook ->
  get notebook "cells" (JList []) = Return cells ->
  iter cells = Return [] ->
  writable w output_file = true ->
  fst (convert w) = Return true
  /\ files (snd (convert w)) output_file = Some EmptyString.
Proof.
  intros Hfile Hload Hget Hiter Hopen. unfold convert.
  rewrite convert_steps, convert_body_steps, Hfile, Hload, Hget, Hopen, Hiter.
  cbn [write_cells fst snd]. split; [reflexivity|].
  unfold completed, written. cbn [files]. apply files_set_file_same.
Qed.

(** When the fields of a cell cannot be read (the cell is not a mapping, its
    source is not iterable or holds an item that is not a string) and the
    cells before it are valid, the conversion returns [False] and the output
    file holds the blocks of the cells before it, and nothing else. *)
Theorem bad_cell_leaves_partial_output (w : World) (text : string)
  (notebook : value) (prefix : list value) (bad : value) (rest : list value)
  (e : exn) :
  files w input_file = Some text ->
  json_load text = Return notebook ->
  get notebook "cells" (JList []) = Return (JList (prefix ++ bad :: rest)) ->
  forallb valid_cell prefix = true ->
  cell_fields bad = Raise e ->
  writable w output_file = true ->
  fst (convert w) = Return false
  /\ files (snd (convert w)) output_file = Some (blocks 1 prefix)
  /\ stdout (snd (convert w)) = stdout w
  /\ stderr (snd (convert w))
     = List.app (stderr w) ["Unexpected error: " ++ exn_msg e].
Proof.
  intros Hfile Hload Hget Hvalid Hbad Hopen. unfold convert.
  rewrite convert_steps, convert_body_steps, Hfile, Hload, Hget, Hopen.
  cbn [iter].
  rewrite (write_cells_stops prefix bad rest e EmptyString 0 Hvalid Hbad).
  destruct (cell_fields_raises bad e Hbad) as [-> ->].
  repeat split. cbn [snd diagnosed files]. unfold written.
  apply files_set_file_same.
Qed.

(** Whenever the conversion returns [True] the output file exists, and it
    is empty or ends with a blank line. *)
Theorem success_leaves_output (w : World) :
  fst (convert w) = Return true ->
  exists out,
    files (snd (convert w)) output_file = Some out
    /\ (out = EmptyString \/ endswith out (nl ++ nl) = true).
Proof.
  unfold convert. rewrite convert_steps, convert_body_steps.
  destruct (files w input_file) as [text|]; [|discriminate].
  destruct (json_load text) as [notebook|e].
  2:{ destruct (is_IOError_or_JSONDecodeError e); [discriminate|].
      destruct (is_Exception e); discriminate. }
  destruct (get notebook "cells" (JList [])) as [cells|e].
  2:{ destruct (is_IOError_or_JSONDecodeError e); [discriminate|].
      destruct (is_Exception e); discriminate. }
  destruct (writable w output_file); [|discriminate].
  destruct (iter cells) as [items|e].
  2:{ destruct (is_IOError_or_JSONDecodeError e); [discriminate|].
      destruct (is_Exception e); discriminate. }
  pose proof (write_cells_blank_end items EmptyString 0) as Hend.
  destruct (write_cells EmptyString 0 items) as [[[]|e] out].
  2:{ destruct (is_IOError_or_JSONDecodeError e); [discriminate|].
      destruct (is_Exception e); discriminate. }
  intros _. exists out. split; [|exact Hend].
  unfold completed, written. cbn [snd files]. apply files_set_file_same.
Qed.

End ConversionEdges.

Section Handling.

Variable json_load : string -> result value.

Hypothesis json_load_raises :
  forall text e, json_load text = Raise e -> is_Exception e = true.

(** The conversion returns a boolean. *)
Lemma convert_returns (input_file output_file : string) (w : World) :
  exists b, fst (convert_notebook_to_py json_load input_file output_file w)
            = Return b.
Proof.
  rewrite convert_steps.
  destruct (convert_body json_load input_file output_file w) as [[b|e] w0] eqn:E.
  - now exists b.
  - destruct (body_raises _ _ _ json_load_raises _ _ _ E) as [Hexn _].
    exists false. rewrite Hexn.
    now destruct (is_IOError_or_JSONDecodeError e).
Qed.

(** When the output cannot be opened for writing the conversion returns
    [False] and changes no file, whatever the input. *)
Theorem unwritable_output_keeps_files (input_file output_file : string)
  (w : World) :
  writable w output_file = false ->
  let run := convert_notebook_to_py json_load input_file output_file w in
  fst run = Return false
  /\ (forall p, files (snd run) p = files w p)
  /\ stdout (snd run) = stdout w.
Proof.
  intros Hopen. cbv zeta.
  rewrite convert_steps, convert_body_steps, Hopen.
  destruct (files w input_file) as [text|]; [|now repeat split].
  destruct (json_load text) as [notebook|e] eqn:Hload.
  2:{ rewrite (json_load_raises _ _ Hload).
      destruct (is_IOError_or_JSONDecodeError e); now repeat split. }
  destruct (get notebook "cells" (JList [])) as [cells|e] eqn:Hget;
    [now repeat split|].
  apply get_raises in Hget.
  unfold is_IOError_or_JSONDecodeError, is_Exception. rewrite Hget.
  now repeat split.
Qed.

Variable parse_args : list string -> World -> (Namespace + nat) * World.

(** When the arguments parse, the process ends with [sys.exit]: status 0 if
    the conversion returned [True], status 1 if it returned [False]; no
    exception reaches the top level.  The world is left as the conversion
    left it. *)
Theorem main_exit_status (argv : list string) (w w0 : World) (args : Namespace) :
  parse_args argv w = (inl args, w0) ->
  let run := convert_notebook_to_py json_load (ns_input args) (ns_output args) w0 in
  snd (main json_load parse_args argv w) = snd run
  /\ (fst (main json_load parse_args argv w) = Exit 0 /\ fst run = Return true
      \/ fst (main json_load parse_args argv w) = Exit 1 /\ fst run = Return false).
Proof.
  intros Hparse. cbv zeta. unfold main. rewrite Hparse.
  destruct (convert_returns (ns_input args) (ns_output args) w0) as [b Hb].
  destruct (convert_notebook_to_py json_load (ns_input args) (ns_output args) w0)
    as [r w1].
  cbn [fst snd] in *. subst r.
  split; [reflexivity|].
  destruct b; [left | right]; now split.
Qed.

End Handling.

(** * Sample runs of the further properties *)

Lemma convert_touches_output_only_witness :
  "nb.ipynb" <> "nb.py"
  /\ files (snd (convert_notebook_to_py sample_load "nb.ipynb" "nb.py"
                   (sample_world sample_text))) "nb.ipynb"
     = Some sample_text.
Proof.
  assert (Hne : "nb.ipynb" <> "nb.py") by discriminate.
  split; [exact Hne|].
  exact (proj1 (convert_touches_output_only sample_load "nb.ipynb" "nb.py"
                  (sample_world sample_text) "nb.ipynb" Hne)).
Defined.

Lemma missing_input_keeps_files_witness :
  let run := convert_notebook_to_py sample_load "missing.ipynb" "nb.py"
               (rerun_world sample_text) in
  fst run = Return false /\ files (snd run) "nb.py" = Some "old".
Proof.
  destruct (missing_input_keeps_files sample_load "missing.ipynb" "nb.py"
              (rerun_world sample_text) eq_refl) as (Hr & Hf & _).
  split; [exact Hr | exact (Hf "nb.py")].
Defined.

Lemma unparsable_input_keeps_files_witness :
  let run := convert_notebook_to_py sample_load "nb.ipynb" "nb.py"
               (rerun_world "not json") in
  fst run = Return false
  /\ files (snd run) "nb.py" = Some "old"
  /\ stderr (snd run)
     = ["Error during conversion: Expecting value: line 1 column 1 (char 0)"].
Proof.
  destruct (unparsable_input_keeps_files sample_load "nb.ipynb" "nb.py"
              (rerun_world "not json") "not json"
              (mk_exn JSONDecodeError "Expecting value: line 1 column 1 (char 0)")
              eq_refl eq_refl eq_refl) as (Hr & Hf & _ & He).
  split; [exact Hr|]. split; [exact (Hf "nb.py") | exact He].
Defined.

Lemma document_not_a_mapping_witness :
  let run := convert_notebook_to_py (fun _ => Return (JList [])) "nb.ipynb"
               "nb.py" (rerun_world "[]") in
  fst run = Return false /\ files (snd run) "nb.py" = Some "old".
Proof.
  destruct (document_not_a_mapping (fun _ => Return (JList [])) "nb.ipynb"
              "nb.py" (rerun_world "[]") "[]" (JList [])
              eq_refl eq_refl eq_refl) as (Hr & Hf & _).
  split; [exact Hr | exact (Hf "nb.py")].
Defined.

Lemma cells_not_iterable_truncates_witness :
  let run := convert_notebook_to_py
               (fun _ => Return (JDict [("cells", JNone)])) "nb.ipynb" "nb.py"
               (rerun_world "null cells") in
  fst run = Return false /\ files (snd run) "nb.py" = Some EmptyString.
Proof.
  destruct (cells_not_iterable_truncates
              (fun _ => Return (JDict [("cells", JNone)])) "nb.ipynb" "nb.py"
              (rerun_world "null cells") "null cells"
              (JDict [("cells", JNone)]) JNone
              (mk_exn TypeError "object is not iterable")
              eq_refl eq_refl eq_refl eq_refl eq_refl) as (Hr & Hf & _).
  split; [exact Hr | exact Hf].
Defined.

Lemma empty_cells_empty_output_witness :
  let run := convert_notebook_to_py
               (fun _ => Return (JDict [("cells", JStr EmptyString)]))
               "nb.ipynb" "nb.py" (rerun_world "empty cells") in
  fst run = Return true /\ files (snd run) "nb.py" = Some EmptyString.
Proof.
  exact (empty_cells_empty_output
           (fun _ => Return (JDict [("cells", JStr EmptyString)]))
           "nb.ipynb" "nb.py" (rerun_world "empty cells") "empty cells"
           (JDict [("cells", JStr EmptyString)]) (JStr EmptyString)
           eq_refl eq_refl eq_refl eq_refl eq_refl).
Defined.

Lemma bad_cell_leaves_partial_output_witness :
  let run := convert_notebook_to_py (fun _ => Return broken_notebook)
               "nb.ipynb" "nb.py" (rerun_world "broken") in
  fst run = Return false
  /\ files (snd run) "nb.py" = Some ("# %% Cell 1" ++ nl ++ "x = 1" ++ nl ++ nl).
Proof.
  destruct (bad_cell_leaves_partial_output (fun _ => Return broken_notebook)
              "nb.ipynb" "nb.py" (rerun_world "broken") "broken" broken_notebook
              [JDict [("cell_type", JStr "code"); ("source", JList [JStr "x = 1"])]]
              JNone [] (mk_exn AttributeError "object has no attribute 'get'")
              eq_refl eq_refl eq_refl eq_refl eq_refl eq_refl) as (Hr & Hf & _).
  split; [exact Hr | exact Hf].
Defined.

Lemma success_leaves_output_witness :
  exists out,
    files (snd (convert_notebook_to_py sample_load "nb.ipynb" "nb.py"
                  (sample_world sample_text))) "nb.py" = Some out
    /\ (out = EmptyString \/ endswith out (nl ++ nl) = true).
Proof.
  exact (success_leaves_output sample_load "nb.ipynb" "nb.py"
           (sample_world sample_text) eq_refl).
Defined.

Lemma unwritable_output_keeps_files_witness :
  let run := convert_notebook_to_py sample_load "nb.ipynb" "nb.py"
               (locked_world sample_text) in
  fst run = Return false /\ files (snd run) "nb.py" = Some "old".
Proof.
  destruct (unwritable_output_keeps_files sample_load sample_load_raises
              "nb.ipynb" "nb.py" (locked_world sample_text) eq_refl)
    as (Hr & Hf & _).
  split; [exact Hr | exact (Hf "nb.py")].
Defined.

Lemma main_exit_status_witness :
  fst (main sample_load sample_parse_args ["missing.ipynb"; "nb.py"]
         (sample_world sample_text)) = Exit 1
  \/ fst (main sample_load sample_parse_args ["missing.ipynb"; "nb.py"]
            (sample_world sample_text)) = Exit 0.
Proof.
  destruct (main_exit_status sample_load sample_load_raises sample_parse_args
              ["missing.ipynb"; "nb.py"] (sample_world sample_text)
              (sample_world sample_text) (mk_Namespace "missing.ipynb" "nb.py")
              eq_refl) as (_ & [[H _]|[H _]]).
  - right. exact H.
  - left. exact H.
Defined.
